(** * Barchart news harvester: the backward-pagination loop of [U1.py]

    A shallow embedding of [date_str_to_timestamps_for_day],
    [parse_date_string_to_timestamp] and [fetch_barchart_news], and the
    properties of the harvest that follow from it.

    Timestamps are Python [int]s (unbounded), modelled as [Z].  Strings are
    ASCII strings.  The remote service, the session handshake and the
    [dateutil] parser are collaborators of the script: they are variables of
    the sections below. *)

From Stdlib Require Import ZArith String Ascii List Bool Lia.
From stdpp Require Import base gmap strings list.

Local Open Scope string_scope.
Local Open Scope Z_scope.

(** ** Python built-ins used by the script *)

Module Py.

(** [str.strip()] and [int(str)] drop the ASCII white space characters. *)
Definition is_space (c : ascii) : bool :=
  let n := N_of_ascii c in
  (((9 <=? n) && (n <=? 13)) || ((28 <=? n) && (n <=? 32)))%N.

Definition is_digit (c : ascii) : bool :=
  let n := N_of_ascii c in ((48 <=? n) && (n <=? 57))%N.

Definition digit_value (c : ascii) : Z := Z.of_N (N_of_ascii c) - 48.

Definition is_empty (s : string) : bool :=
  match s with EmptyString => true | String _ _ => false end.

(** Truth value of a [str]: the empty string is falsy. *)
Definition truthy_str (s : string) : bool := negb (is_empty s).

(** Truth value of an [int]: zero is falsy. *)
Definition truthy_int (z : Z) : bool := negb (z =? 0).

Fixpoint lstrip (s : string) : string :=
  match s with
  | String c r => if is_space c then lstrip r else s
  | EmptyString => EmptyString
  end.

Fixpoint rstrip (s : string) : string :=
  match s with
  | EmptyString => EmptyString
  | String c r =>
      let r' := rstrip r in
      if is_space c && is_empty r' then EmptyString else String c r'
  end.

Definition strip (s : string) : string := rstrip (lstrip s).

Definition lower_char (c : ascii) : ascii :=
  let n := N_of_ascii c in
  if ((65 <=? n) && (n <=? 90))%N then ascii_of_N (n + 32) else c.

Fixpoint lower (s : string) : string :=
  match s with
  | EmptyString => EmptyString
  | String c r => String (lower_char c) (lower r)
  end.

Definition startswith (s p : string) : bool := String.prefix p s.

(** [s.find(sub)]: index of the first occurrence, [-1] when there is none. *)
Definition find (s sub : string) : Z :=
  match String.index 0 sub s with
  | Some n => Z.of_nat n
  | None => -1
  end.

Fixpoint drop (n : nat) (s : string) : string :=
  match n, s with
  | O, _ => s
  | S n', String _ r => drop n' r
  | S _, EmptyString => EmptyString
  end.

(** The digits of [int(str)]: a digit first and last, single underscores
    only between digits. *)
Fixpoint int_digits (acc : Z) (after_digit : bool) (s : string) : option Z :=
  match s with
  | EmptyString => if after_digit then Some acc else None
  | String c r =>
      if is_digit c then int_digits (10 * acc + digit_value c) true r
      else if Ascii.eqb c "_"%char && after_digit then int_digits acc false r
      else None
  end.

(** [int(s)] for a [str]; [None] stands for [ValueError]. *)
Definition int_of_str (s : string) : option Z :=
  match strip s with
  | String "-"%char r => Z.opp <$> int_digits 0 false r
  | String "+"%char r => int_digits 0 false r
  | t => int_digits 0 false t
  end.

End Py.

(** ** Python [float]s, as far as [timestamp()] needs them

    [timedelta.total_seconds()] is the true division of an integer number of
    microseconds by [10**6]: the binary64 value nearest to the quotient, ties
    to even.  A finite binary64 value is [mantissa * 2 ^ exponent] with
    [|mantissa| <= 2^53]; the quotients met here lie far from the subnormal
    and overflow ranges, which are not modelled. *)

Module PyFloat.

Record float : Type := mk_float { mantissa : Z; exponent : Z }.

(** [floor (log2 (a / d))] for positive [a] and [d]. *)
Definition floor_log2_ratio (a d : Z) : Z :=
  let k := Z.log2 a - Z.log2 d in
  if (if 0 <=? k then d * 2 ^ k <=? a else d <=? a * 2 ^ (- k))
  then k else k - 1.

(** The integer nearest to [a / d], ties to even ([0 <= a], [0 < d]). *)
Definition round_half_even (a d : Z) : Z :=
  let q := a / d in
  let r := a mod d in
  if (d <? 2 * r) || ((2 * r =? d) && Z.odd q) then q + 1 else q.

(** [n / d] on Python [int]s, [0 < d]. *)
Definition truediv (n d : Z) : float :=
  if n =? 0 then mk_float 0 0
  else
    let a := Z.abs n in
    let e := floor_log2_ratio a d - 52 in
    let m :=
      if 0 <=? e then round_half_even a (d * 2 ^ e)
      else round_half_even (a * 2 ^ (- e)) d in
    mk_float (Z.sgn n * m) e.

(** [int(x)] on a [float]: truncation towards zero. *)
Definition int_of_float (x : float) : Z :=
  if 0 <=? exponent x then mantissa x * 2 ^ exponent x
  else Z.quot (mantissa x) (2 ^ (- exponent x)).

End PyFloat.

(** ** The [datetime] module, as far as the script uses it

    The proleptic Gregorian calendar of CPython's [datetime]: ordinals count
    days from 0001-01-01 (ordinal 1); years run from [MINYEAR] to
    [MAXYEAR]. *)

Module PyDatetime.

Definition MINYEAR : Z := 1.
Definition MAXYEAR : Z := 9999.
Definition _MAXORDINAL : Z := 3652059.
Definition _DI400Y : Z := 146097.
Definition _DI100Y : Z := 36524.
Definition _DI4Y : Z := 1461.
Definition _EPOCH_ORDINAL : Z := 719163.

Definition _is_leap (year : Z) : bool :=
  (year mod 4 =? 0) && (negb (year mod 100 =? 0) || (year mod 400 =? 0)).

Definition _days_before_year (year : Z) : Z :=
  let y := year - 1 in y * 365 + y / 4 - y / 100 + y / 400.

Definition _DAYS_IN_MONTH (month : Z) : Z :=
  match month with
  | 1 => 31 | 2 => 28 | 3 => 31 | 4 => 30 | 5 => 31 | 6 => 30
  | 7 => 31 | 8 => 31 | 9 => 30 | 10 => 31 | 11 => 30 | 12 => 31
  | _ => -1
  end.

Definition _DAYS_BEFORE_MONTH (month : Z) : Z :=
  match month with
  | 1 => 0 | 2 => 31 | 3 => 59 | 4 => 90 | 5 => 120 | 6 => 151
  | 7 => 181 | 8 => 212 | 9 => 243 | 10 => 273 | 11 => 304 | 12 => 334
  | _ => -1
  end.

Definition _days_in_month (year month : Z) : Z :=
  if (month =? 2) && _is_leap year then 29 else _DAYS_IN_MONTH month.

Definition _days_before_month (year month : Z) : Z :=
  _DAYS_BEFORE_MONTH month + (if (2 <? month) && _is_leap year then 1 else 0).

Definition _ymd2ord (year month day : Z) : Z :=
  _days_before_year year + _days_before_month year month + day.

(** [_ord2ymd]: the inverse, by 400-, 100-, 4- and 1-year cycles. *)
Definition _ord2ymd (ordinal : Z) : Z * Z * Z :=
  let n := ordinal - 1 in
  let n400 := n / _DI400Y in
  let n := n mod _DI400Y in
  let year := n400 * 400 + 1 in
  let n100 := n / _DI100Y in
  let n := n mod _DI100Y in
  let n4 := n / _DI4Y in
  let n := n mod _DI4Y in
  let n1 := n / 365 in
  let n := n mod 365 in
  let year := year + n100 * 100 + n4 * 4 + n1 in
  if (n1 =? 4) || (n100 =? 4) then (year - 1, 12, 31)
  else
    let leapyear := (n1 =? 3) && (negb (n4 =? 24) || (n100 =? 3)) in
    let month := Z.shiftr (n + 50) 5 in
    let preceding :=
      _DAYS_BEFORE_MONTH month + (if (2 <? month) && leapyear then 1 else 0) in
    if n <? preceding then
      let month' := month - 1 in
      let preceding' :=
        preceding
        - (_DAYS_IN_MONTH month' + (if (month' =? 2) && leapyear then 1 else 0)) in
      (year, month', n - preceding' + 1)
    else (year, month, n - preceding + 1).

(** [_check_date_fields]: what the [date] and [datetime] constructors accept. *)
Definition _check_date_fields (year month day : Z) : bool :=
  (MINYEAR <=? year) && (year <=? MAXYEAR)
  && (1 <=? month) && (month <=? 12)
  && (1 <=? day) && (day <=? _days_in_month year month).

(** A [datetime]; [tzinfo] is [None] for a naive value and the UTC offset in
    seconds of a fixed-offset [timezone] otherwise. *)
Record datetime : Type := mk_datetime {
  year : Z;
  month : Z;
  day : Z;
  hour : Z;
  minute : Z;
  second : Z;
  microsecond : Z;
  tzinfo : option Z
}.

Definition replace_tzinfo (d : datetime) (tz : option Z) : datetime :=
  mk_datetime (year d) (month d) (day d) (hour d) (minute d) (second d)
    (microsecond d) tz.

Definition replace_time (d : datetime) (h mi s us : Z) : datetime :=
  mk_datetime (year d) (month d) (day d) h mi s us (tzinfo d).

Definition replace_time_tzinfo (d : datetime) (h mi s us : Z) (tz : option Z)
  : datetime :=
  mk_datetime (year d) (month d) (day d) h mi s us tz.

(** [d.replace(year=y)]; [None] stands for the [ValueError] of an impossible
    date (29 February moved to a common year). *)
Definition replace_year (d : datetime) (y : Z) : option datetime :=
  if _check_date_fields y (month d) (day d)
  then Some (mk_datetime y (month d) (day d) (hour d) (minute d) (second d)
               (microsecond d) (tzinfo d))
  else None.

Definition toordinal (d : datetime) : Z := _ymd2ord (year d) (month d) (day d).

(** [timezone(timedelta(hours=h))] and [timezone.utc], as offsets. *)
Definition timezone_hours (h : Z) : Z := h * 3600.
Definition timezone_utc : Z := 0.

(** [d - timedelta(seconds=offset)] re-labelled as UTC: the first half of
    [astimezone].  [None] stands for [OverflowError] (the day leaves
    [1 .. _MAXORDINAL]). *)
Definition shift_to_utc (d : datetime) (offset : Z) : option datetime :=
  let secs := hour d * 3600 + minute d * 60 + second d - offset in
  let days := toordinal d + secs / 86400 in
  let rem := secs mod 86400 in
  if (0 <? days) && (days <=? _MAXORDINAL) then
    let '(y, m, dd) := _ord2ymd days in
    Some (mk_datetime y m dd (rem / 3600) (rem mod 3600 / 60) (rem mod 60)
            (microsecond d) (Some timezone_utc))
  else None.

(** [d.astimezone(timezone.utc)] for an aware [d]. A naive [d] would be read
    in the host's local zone; the script never does that, and the model
    reads it as UTC. *)
Definition astimezone_utc (d : datetime) : option datetime :=
  match tzinfo d with
  | Some off => shift_to_utc d off
  | None => shift_to_utc d 0
  end.

(** Microseconds between the epoch and an aware datetime:
    [(d - _EPOCH) // timedelta(microseconds=1)]. *)
Definition microseconds_since_epoch (d : datetime) : Z :=
  let off := match tzinfo d with Some o => o | None => 0 end in
  ((toordinal d - _EPOCH_ORDINAL) * 86400
   + hour d * 3600 + minute d * 60 + second d - off) * 1000000
  + microsecond d.

(** [d.timestamp()] for an aware [d]: [(d - _EPOCH).total_seconds()]. *)
Definition timestamp (d : datetime) : PyFloat.float :=
  PyFloat.truediv (microseconds_since_epoch d) 1000000.

End PyDatetime.

(** ** [datetime.strptime(s, '%Y%m%d')]

    [_strptime] compiles the format to the pattern
    [(?P<Y>\d\d\d\d)(?P<m>1[0-2]|0[1-9]|[1-9])(?P<d>3[01]|[12]\d|0[1-9]|[1-9]| [1-9])],
    matches it at the start of the string (alternatives in order, with
    backtracking), refuses unconverted trailing data and then builds the
    date, which checks the fields. *)

Module Strptime.

Definition in_range (lo hi : ascii) (c : ascii) : bool :=
  ((N_of_ascii lo <=? N_of_ascii c) && (N_of_ascii c <=? N_of_ascii hi))%N.

(** The ways group [m] can match a prefix, in the order the matcher tries
    them: the value and the rest of the string. *)
Definition month_alternatives (s : string) : list (Z * string) :=
  match s with
  | String a r =>
      (match r with
       | String b r' =>
           (if Ascii.eqb a "1" && in_range "0" "2" b
            then [(10 + Py.digit_value b, r')] else [])
           ++ (if Ascii.eqb a "0" && in_range "1" "9" b
               then [(Py.digit_value b, r')] else [])
       | EmptyString => []
       end)
      ++ (if in_range "1" "9" a then [(Py.digit_value a, r)] else [])
  | EmptyString => []
  end.

Definition day_alternatives (s : string) : list (Z * string) :=
  match s with
  | String a r =>
      (match r with
       | String b r' =>
           (if Ascii.eqb a "3" && in_range "0" "1" b
            then [(30 + Py.digit_value b, r')] else [])
           ++ (if in_range "1" "2" a && Py.is_digit b
               then [(10 * Py.digit_value a + Py.digit_value b, r')] else [])
           ++ (if Ascii.eqb a "0" && in_range "1" "9" b
               then [(Py.digit_value b, r')] else [])
       | EmptyString => []
       end)
      ++ (if in_range "1" "9" a then [(Py.digit_value a, r)] else [])
      ++ (match r with
          | String b r' =>
              if Ascii.eqb a " " && in_range "1" "9" b
              then [(Py.digit_value b, r')] else []
          | EmptyString => []
          end)
  | EmptyString => []
  end.

(** Group [Y]: exactly four digits. *)
Definition year_group (s : string) : option (Z * string) :=
  match s with
  | String a (String b (String c (String d r))) =>
      if Py.is_digit a && Py.is_digit b && Py.is_digit c && Py.is_digit d
      then Some (1000 * Py.digit_value a + 100 * Py.digit_value b
                 + 10 * Py.digit_value c + Py.digit_value d, r)
      else None
  | _ => None
  end.

(** The first success of [m] followed by [d]. *)
Fixpoint month_then_day (ms : list (Z * string)) : option (Z * Z * string) :=
  match ms with
  | [] => None
  | (m, r) :: ms' =>
      match day_alternatives r with
      | (d, r') :: _ => Some (m, d, r')
      | [] => month_then_day ms'
      end
  end.

(** [None] stands for [ValueError]. *)
Definition strptime_Ymd (s : string) : option PyDatetime.datetime :=
  match year_group s with
  | None => None
  | Some (y, r) =>
      match month_then_day (month_alternatives r) with
      | None => None
      | Some (m, d, rest) =>
          if Py.is_empty rest && PyDatetime._check_date_fields y m d
          then Some (PyDatetime.mk_datetime y m d 0 0 0 0 None)
          else None
      end
  end.

End Strptime.

(** ** Results of a call *)

(** A call either returns or lets an exception escape. *)
Inductive outcome (A : Type) : Type :=
| Returned (a : A)
| Raised.
Arguments Returned {A} a.
Arguments Raised {A}.

(** ** [date_str_to_timestamps_for_day] *)

(** [(None, None)] is the [ValueError] branch.  [astimezone] raises
    [OverflowError] when the UTC day has no year in [1 .. 9999]; the
    function catches [ValueError] only, so that one escapes. *)
Definition date_str_to_timestamps_for_day (date_str_yyyymmdd : string)
  : outcome (option Z * option Z) :=
  match Strptime.strptime_Ymd date_str_yyyymmdd with
  | None => Returned (None, None)
  | Some dt_obj_naive =>
      let cdt_tz := PyDatetime.timezone_hours (-5) in
      let dt_obj_cdt_start :=
        PyDatetime.replace_time_tzinfo dt_obj_naive 0 0 0 0 (Some cdt_tz) in
      let dt_obj_cdt_end :=
        PyDatetime.replace_time_tzinfo dt_obj_naive 23 59 59 999999 (Some cdt_tz) in
      match PyDatetime.astimezone_utc dt_obj_cdt_start with
      | None => Raised
      | Some dt_obj_utc_start =>
          match PyDatetime.astimezone_utc dt_obj_cdt_end with
          | None => Raised
          | Some dt_obj_utc_end =>
              let start_timestamp :=
                PyFloat.int_of_float (PyDatetime.timestamp dt_obj_utc_start) in
              let end_timestamp :=
                PyFloat.int_of_float (PyDatetime.timestamp dt_obj_utc_end) in
              Returned (Some start_timestamp, Some end_timestamp)
          end
      end
  end.

(** ** [parse_date_string_to_timestamp] *)

Section Normalizer.

(** [dateutil.parser.parse] with its default settings; [None] stands for any
    exception it raises. *)
Variable date_parser_parse : string -> option PyDatetime.datetime.

(** [datetime.datetime.now().year]. *)
Variable current_year : Z.

(** The datetime just before the conversion to UTC: the zone, the noon and
    the year rules applied in that order.  [None] stands for an exception,
    which the function turns into [None]. *)
Definition resolve_datetime (date_str : string) : option PyDatetime.datetime :=
  match date_parser_parse date_str with
  | None => None
  | Some dt_object =>
      let cdt_tz := PyDatetime.timezone_hours (-5) in
      let dt_object :=
        match PyDatetime.tzinfo dt_object with
        | None =>
            let dt_object := PyDatetime.replace_tzinfo dt_object (Some cdt_tz) in
            if (Py.find (Py.lower date_str) "am" =? -1)
               && (Py.find (Py.lower date_str) "pm" =? -1)
            then PyDatetime.replace_time dt_object 12 0 0 0
            else dt_object
        | Some _ => dt_object
        end in
      if PyDatetime.year dt_object =? 1900
      then PyDatetime.replace_year dt_object current_year
      else Some dt_object
  end.

Definition parse_date_string_to_timestamp (date_str : string) : option Z :=
  if Py.is_empty date_str then None
  else
    match resolve_datetime date_str with
    | None => None
    | Some dt_object =>
        match PyDatetime.astimezone_utc dt_object with
        | None => None
        | Some dt_object_utc =>
            Some (PyFloat.int_of_float (PyDatetime.timestamp dt_object_utc))
        end
    end.

End Normalizer.

(** ** The pages of the feed *)

(** A [div.story.clearfix] of a page, as BeautifulSoup presents it: the
    [a.story-link] with an [href] (its [href] and its stripped text), the
    stripped text of the [span.story-meta] and of the [p.story-excerpt]. *)
Record story_div : Type := mk_story_div {
  link_tag : option (string * string);
  meta_tag : option string;
  excerpt_tag : option string
}.

(** The value under ['timestamp'] in the JSON reply. *)
Inductive json_timestamp : Type :=
| JsonNull
| JsonInt (z : Z)
| JsonStr (s : string).

(** The reply to one POST.  [EmptyJson] is a reply whose decoded JSON is
    falsy (such as the empty object): the function stops on it before it
    looks at any entry.  [JsonObject] is any other decoded reply, a non-empty
    object; its [content] is [None] when the ['content'] entry is missing,
    null or the empty string, and otherwise the story divs found in the
    HTML. *)
Inductive response : Type :=
| RequestException
| JSONDecodeError
| EmptyJson
| JsonObject (content : option (list story_div)) (timestamp : json_timestamp).

Definition truthy_timestamp (t : json_timestamp) : bool :=
  match t with
  | JsonNull => false
  | JsonInt z => Py.truthy_int z
  | JsonStr s => Py.truthy_str s
  end.

(** [int(t)]; [None] stands for [ValueError]. *)
Definition int_of_timestamp (t : json_timestamp) : option Z :=
  match t with
  | JsonNull => None
  | JsonInt z => Some z
  | JsonStr s => Py.int_of_str s
  end.

(** An entry of [all_news_items]. *)
Record news_item : Type := mk_news_item {
  item_id : string;
  item_title : string;
  item_url : string;
  item_published_str_original : string;
  item_published_timestamp_utc : Z;
  item_summary : string
}.

Definition BASE_URL : string := "https://www.barchart.com".
Definition MAX_API_CALLS : nat := 500.
Definition NEWS_COUNT_LIMIT : Z := 35.

(** [re.search(r'/news/(\d+)/', url)]: group 1 of the leftmost match. *)
Fixpoint take_digits (s : string) : string * string :=
  match s with
  | String c r =>
      if Py.is_digit c
      then let '(ds, rest) := take_digits r in (String c ds, rest)
      else (EmptyString, s)
  | EmptyString => (EmptyString, EmptyString)
  end.

Fixpoint search_news_id (url : string) : option string :=
  match url with
  | EmptyString => None
  | String _ r =>
      if Py.startswith url "/news/" then
        let '(ds, rest) := take_digits (Py.drop 6 url) in
        if Py.truthy_str ds && Py.startswith rest "/" then Some ds
        else search_news_id r
      else search_news_id r
  end.

(** [re.match(r'^([^-]+)-', meta_text)]: group 1 and what follows the
    match. *)
Fixpoint split_at_dash (s : string) : option (string * string) :=
  match s with
  | EmptyString => None
  | String c r =>
      if Ascii.eqb c "-" then Some (EmptyString, r)
      else match split_at_dash r with
           | Some (a, b) => Some (String c a, b)
           | None => None
           end
  end.

Definition match_feed_name (meta_text : string) : option (string * string) :=
  match split_at_dash meta_text with
  | Some (EmptyString, _) => None
  | other => other
  end.

(** ** [fetch_barchart_news] *)

(** Why a harvest ended: the branch of the function that ended it. *)
Inductive termination : Type :=
| InvalidDate          (* "Could not determine timestamp range": return [] *)
| AuthError            (* "Failed to obtain XSRF token": return [] *)
| TransportError       (* a failed, undecodable or empty reply *)
| ExhaustedFeed        (* no HTML content and no 'timestamp' *)
| BelowWindow          (* an item older than the start of the target day *)
| LimitReached         (* news_count_limit items collected, no target date *)
| SafetyLimitReached   (* the loop ran out of API calls *)
| UncaughtException.   (* an exception left the function *)

#[global] Instance termination_eq_dec : EqDecision termination.
Proof. solve_decision. Defined.

(** A story that passed the link, id, feed-name and date checks. *)
Record candidate : Type := mk_candidate {
  news_id : string;
  title : string;
  news_url : string;
  published_str_part : string;
  current_item_ts_utc : Z;
  summary : string
}.

(** The variables of the [while] loop, with the list of ['before'] values
    posted so far ([posted], oldest first) and, once [stop_fetching] is set,
    the branch that set it. *)
Record loop_state : Type := mk_loop_state {
  current_before_timestamp : Z;
  all_news_items : list news_item;
  processed_news_ids : gset string;
  api_call_num : nat;
  stop_fetching : option termination;
  posted : list Z
}.

(** The variables the [for] loop over the stories updates; [broke] records
    the [break] of the older-than-target branch. *)
Record batch_state : Type := mk_batch_state {
  batch_items : list news_item;
  batch_ids : gset string;
  earliest_valid_ts_in_batch_for_fallback : option Z;
  broke : bool
}.

(** What a call of the function leaves behind: the returned list (or the
    escaped exception), the ['before'] values it posted and why it ended. *)
Record harvest : Type := mk_harvest {
  news : outcome (list news_item);
  before_values : list Z;
  reason : termination
}.

(** [datetime.fromtimestamp(t, tz=utc)] raises outside the years 1 to 9999;
    the progress messages call it on the cursor. *)
Definition fromtimestamp_utc_ok (t : Z) : bool :=
  (-62135596800 <=? t) && (t <=? 253402300799).

(** The target day, once the function has computed it: [None] when
    [target_date_str] is falsy (then both bounds are [None] too). *)
Definition window : Type := option (Z * Z).

(** [target_day_start_ts and ts < target_day_start_ts] *)
Definition older_than_target (w : window) (ts : Z) : bool :=
  match w with
  | Some (target_day_start_ts, _) =>
      Py.truthy_int target_day_start_ts && (ts <? target_day_start_ts)
  | None => false
  end.

(** [not target_date_str or (start <= ts <= end)] *)
Definition passes_date_filter (w : window) (ts : Z) : bool :=
  match w with
  | Some (target_day_start_ts, target_day_end_ts) =>
      (target_day_start_ts <=? ts) && (ts <=? target_day_end_ts)
  | None => true
  end.

Definition item_of_candidate (c : candidate) : news_item :=
  mk_news_item (news_id c) (title c) (news_url c) (published_str_part c)
    (current_item_ts_utc c) (summary c).

(** The cursor for the next call.  The batch minimum only feeds a warning:
    the branches that announce a fallback assign nothing. *)
Definition next_before_timestamp (current_before_timestamp : Z)
    (next_api_page_timestamp_str : json_timestamp)
    (earliest_valid_ts_in_batch_for_fallback : option Z) : Z :=
  if truthy_timestamp next_api_page_timestamp_str then
    match int_of_timestamp next_api_page_timestamp_str with
    | Some next_api_page_timestamp =>
        if next_api_page_timestamp <? current_before_timestamp
        then next_api_page_timestamp
        else current_before_timestamp
    | None => current_before_timestamp
    end
  else current_before_timestamp.

Section Harvest.

Variable date_parser_parse : string -> option PyDatetime.datetime.
Variable current_year : Z.

(** [int(datetime.now(timezone.utc).timestamp())] *)
Variable now_utc_timestamp : Z.

(** The session handshake for a subsection: the token, [None] on failure. *)
Variable get_initial_cookies_and_xsrf : string -> option string.

(** The reply of the service to the [n]-th POST of a harvest, for a
    subsection and a ['before'] value. *)
Variable session_post : string -> nat -> Z -> response.

(** The module constant [MAX_API_CALLS]. *)
Variable max_api_calls : nat.

(** The body of the [for] loop up to the date check: every [continue]. *)
Definition extract_candidate (story_div : story_div) : option candidate :=
  match link_tag story_div, meta_tag story_div with
  | Some (href, title), Some meta_text =>
      let news_url :=
        if Py.startswith href "http" then href else BASE_URL ++ href in
      match search_news_id news_url with
      | None => None
      | Some news_id =>
          let '(feed_name, published_str_part) :=
            match match_feed_name meta_text with
            | Some (group1, rest) => (Py.strip group1, Py.strip rest)
            | None => ("Unknown", meta_text)
            end in
          if negb (String.eqb (Py.lower feed_name) "barchart") then None
          else
            match parse_date_string_to_timestamp date_parser_parse
                    current_year published_str_part with
            | None => None
            | Some current_item_ts_utc =>
                Some (mk_candidate news_id title news_url published_str_part
                        current_item_ts_utc
                        (match excerpt_tag story_div with
                         | Some text => text
                         | None => EmptyString
                         end))
            end
      end
  | _, _ => None
  end.

(** The rest of the body, for a candidate. *)
Definition process_candidate (w : window) (c : candidate) (b : batch_state)
  : batch_state :=
  let ts := current_item_ts_utc c in
  let earliest :=
    match earliest_valid_ts_in_batch_for_fallback b with
    | None => Some ts
    | Some e => if ts <? e then Some ts else Some e
    end in
  if older_than_target w ts then
    mk_batch_state (batch_items b) (batch_ids b) earliest true
  else if bool_decide (news_id c ∉ batch_ids b) && passes_date_filter w ts then
    mk_batch_state (batch_items b ++ [item_of_candidate c])%list
      ({[news_id c]} ∪ batch_ids b) earliest false
  else mk_batch_state (batch_items b) (batch_ids b) earliest false.

(** [for story_div in stories: ...] *)
Fixpoint process_stories (w : window) (stories : list story_div)
    (b : batch_state) : batch_state :=
  match stories with
  | [] => b
  | story_div :: rest =>
      match extract_candidate story_div with
      | None => process_stories w rest b
      | Some c =>
          let b' := process_candidate w c b in
          if broke b' then b' else process_stories w rest b'
      end
  end.

(** The batch minimum of the stories of a page: the value of
    [earliest_valid_ts_in_batch_for_fallback] after the [for] loop. *)
Definition batch_minimum (w : window) (stories : list story_div) : option Z :=
  earliest_valid_ts_in_batch_for_fallback
    (process_stories w stories (mk_batch_state [] ∅ None false)).

(** The variables as the loop finds them. *)
Definition initial_loop_state (current_before_timestamp : Z) : loop_state :=
  mk_loop_state current_before_timestamp [] ∅ 0 None [].

(** The variables of the [for] loop as a pass of the [while] loop sets them. *)
Definition initial_batch_state (st : loop_state) : batch_state :=
  mk_batch_state (all_news_items st) (processed_news_ids st) None false.

(** One pass through the body of the [while] loop. *)
Definition api_call (subsection : string) (w : window) (news_count_limit : Z)
    (st : loop_state) : loop_state :=
  let api_call_num := S (api_call_num st) in
  let before := current_before_timestamp st in
  if negb (fromtimestamp_utc_ok before) then
    mk_loop_state before (all_news_items st) (processed_news_ids st)
      api_call_num (Some UncaughtException) (posted st)
  else
    let posted := (posted st ++ [before])%list in
    match session_post subsection api_call_num before with
    | RequestException | JSONDecodeError | EmptyJson =>
        mk_loop_state before (all_news_items st) (processed_news_ids st)
          api_call_num (Some TransportError) posted
    | JsonObject html_content timestamp_str =>
        let exhausted :=
          negb (bool_decide (is_Some html_content))
          && negb (truthy_timestamp timestamp_str) in
        let b :=
          process_stories w (default [] html_content)
            (initial_batch_state st) in
        if exhausted then
          mk_loop_state before (batch_items b) (batch_ids b) api_call_num
            (Some ExhaustedFeed) posted
        else if broke b then
          mk_loop_state before (batch_items b) (batch_ids b) api_call_num
            (Some BelowWindow) posted
        else
          let next :=
            next_before_timestamp before timestamp_str
              (earliest_valid_ts_in_batch_for_fallback b) in
          mk_loop_state next (batch_items b) (batch_ids b) api_call_num
            (if bool_decide (w = None)
                && (news_count_limit <=? Z.of_nat (length (batch_items b)))
             then Some LimitReached else None)
            posted
    end.

(** [while not stop_fetching and api_call_num < MAX_API_CALLS], with the
    calls that remain as the measure. *)
Fixpoint while_loop (remaining : nat) (subsection : string) (w : window)
    (news_count_limit : Z) (st : loop_state) : loop_state :=
  match remaining with
  | O => st
  | S remaining' =>
      match stop_fetching st with
      | Some _ => st
      | None =>
          while_loop remaining' subsection w news_count_limit
            (api_call subsection w news_count_limit st)
      end
  end.

(** The final filter, run when both bounds are truthy. *)
Definition final_filter (w : window) (items : list news_item)
  : list news_item :=
  match w with
  | Some (target_day_start_ts, target_day_end_ts) =>
      if Py.truthy_int target_day_start_ts && Py.truthy_int target_day_end_ts
      then
        filter
          (fun item =>
             (target_day_start_ts <=? item_published_timestamp_utc item)
             && (item_published_timestamp_utc item <=? target_day_end_ts) = true)
          items
      else items
  | None => items
  end.

(** The function before the [with requests.Session()] block: the target
    day and the first cursor.  The progress messages format the bounds and
    the cursor with [fromtimestamp]. *)
Inductive setup : Type :=
| SetupRaised
| SetupAborted
| SetupDone (w : window) (current_before_timestamp : Z).

Definition initial_setup (target_date_str : option string) : setup :=
  if match target_date_str with
     | Some s => Py.truthy_str s
     | None => false
     end
  then
    match date_str_to_timestamps_for_day (default "" target_date_str) with
    | Raised => SetupRaised
    | Returned (Some target_day_start_ts, Some target_day_end_ts) =>
        if Py.truthy_int target_day_start_ts
           && Py.truthy_int target_day_end_ts
        then
          let current_before_timestamp := target_day_end_ts + 1 in
          if fromtimestamp_utc_ok target_day_start_ts
             && fromtimestamp_utc_ok target_day_end_ts
             && fromtimestamp_utc_ok current_before_timestamp
          then SetupDone (Some (target_day_start_ts, target_day_end_ts))
                 current_before_timestamp
          else SetupRaised
        else SetupAborted
    | Returned _ => SetupAborted
    end
  else SetupDone None now_utc_timestamp.

(** [initial_xsrf_token or get_initial_cookies_and_xsrf(session, subsection)] *)
Definition obtain_xsrf_token (subsection : string)
    (initial_xsrf_token : option string) : option string :=
  match initial_xsrf_token with
  | Some t => if Py.truthy_str t then Some t
              else get_initial_cookies_and_xsrf subsection
  | None => get_initial_cookies_and_xsrf subsection
  end.

(** The function from the [with requests.Session()] block on. *)
Definition harvest_from (subsection : string) (w : window)
    (news_count_limit : Z) (initial_xsrf_token : option string)
    (current_before_timestamp : Z) : harvest :=
  match obtain_xsrf_token subsection initial_xsrf_token with
  | Some t =>
      if Py.truthy_str t then
        let st :=
          while_loop max_api_calls subsection w news_count_limit
            (initial_loop_state current_before_timestamp) in
        match stop_fetching st with
        | Some UncaughtException =>
            mk_harvest Raised (posted st) UncaughtException
        | Some r =>
            mk_harvest (Returned (final_filter w (all_news_items st)))
              (posted st) r
        | None =>
            mk_harvest (Returned (final_filter w (all_news_items st)))
              (posted st) SafetyLimitReached
        end
      else mk_harvest (Returned []) [] AuthError
  | None => mk_harvest (Returned []) [] AuthError
  end.

(** [fetch_barchart_news], with what it posted and why it ended. *)
Definition fetch_barchart_news_run (subsection : string)
    (target_date_str : option string) (news_count_limit : Z)
    (initial_xsrf_token : option string) : harvest :=
  match initial_setup target_date_str with
  | SetupRaised => mk_harvest Raised [] UncaughtException
  | SetupAborted => mk_harvest (Returned []) [] InvalidDate
  | SetupDone w current_before_timestamp =>
      harvest_from subsection w news_count_limit initial_xsrf_token
        current_before_timestamp
  end.

(** What the caller sees. *)
Definition fetch_barchart_news (subsection : string)
    (target_date_str : option string) (news_count_limit : Z)
    (initial_xsrf_token : option string) : outcome (list news_item) :=
  news (fetch_barchart_news_run subsection target_date_str news_count_limit
          initial_xsrf_token).

End Harvest.

(** ** Mocked collaborators

    Pages in the shape the service sends for the target day 20250611, and
    what [dateutil] returns for their date strings on a host whose zone is
    not US Central (the zone name CDT is then unknown to it and the result is
    naive; a missing year is the current one). *)

Module Mock.

Definition naive (y m d h mi : Z) : PyDatetime.datetime :=
  PyDatetime.mk_datetime y m d h mi 0 0 None.

Definition parse_table (current_year : Z)
  : list (string * PyDatetime.datetime) :=
  [ ("Tue Jun 10, 5:00PM", naive current_year 6 10 17 0);
    ("Sat Jun 10, 2023", naive 2023 6 10 0 0);
    ("Wed Jun 11, 5:00PM CDT", naive current_year 6 11 17 0);
    ("Wed Jun 11, 1:00PM CDT", naive current_year 6 11 13 0);
    ("Wed Jun 11, 9:00AM CDT", naive current_year 6 11 9 0);
    ("Wed Jun 11, 2:00AM CDT", naive current_year 6 11 2 0);
    ("Wed Jun 11, 1:00AM CDT", naive current_year 6 11 1 0);
    ("Tue Jun 10, 6:00PM CDT", naive current_year 6 10 18 0);
    ("Thu Jun 12, 9:00AM CDT", naive current_year 6 12 9 0);
    ("2025-06-11T14:00:00+00:00",
     PyDatetime.mk_datetime 2025 6 11 14 0 0 0 (Some 0)) ].

Fixpoint lookup_string {A : Type} (key : string) (table : list (string * A))
  : option A :=
  match table with
  | [] => None
  | (k, v) :: rest => if String.eqb k key then Some v else lookup_string key rest
  end.

Definition date_parser_parse (current_year : Z) (s : string)
  : option PyDatetime.datetime :=
  lookup_string s (parse_table current_year).

(** Whether the string carries a clock time. *)
Definition has_clock_time (s : string) : bool :=
  negb (Py.find s ":" =? -1).

Definition handshake (subsection : string) : option string := Some "token".

Definition story (id published feed : string) : story_div :=
  mk_story_div
    (Some ("/story/news/" ++ id ++ "/slug", "Title " ++ id))
    (Some (feed ++ " - " ++ published))
    (Some ("Excerpt " ++ id)).

(** Three overlapping pages; the third holds an item older than the target
    day, followed by one inside it. *)
Definition paged_feed (subsection : string) (n : nat) (before : Z) : response :=
  match n with
  | 1%nat =>
      JsonObject
        (Some [story "1" "Wed Jun 11, 5:00PM CDT" "Barchart";
               story "2" "Wed Jun 11, 1:00PM CDT" "Barchart"])
        (JsonInt 1749664800)
  | 2%nat =>
      JsonObject
        (Some [story "2" "Wed Jun 11, 1:00PM CDT" "Barchart";
               story "7" "Wed Jun 11, 9:00AM CDT" "Associated Press";
               story "3" "Wed Jun 11, 9:00AM CDT" "Barchart"])
        (JsonStr "1749650400")
  | 3%nat =>
      JsonObject
        (Some [story "4" "Wed Jun 11, 1:00AM CDT" "Barchart";
               story "5" "Tue Jun 10, 6:00PM CDT" "Barchart";
               story "6" "Wed Jun 11, 2:00AM CDT" "Barchart"])
        (JsonInt 1749621600)
  | _ => EmptyJson
  end.

(** A feed that never ends: the same item on every page, and a hint one
    minute before the cursor (never before the epoch). *)
Definition endless_feed (subsection : string) (n : nat) (before : Z)
  : response :=
  JsonObject (Some [story "1" "Wed Jun 11, 9:00AM CDT" "Barchart"])
    (JsonInt (Z.max 1 (before - 60))).

(** Every page holds one item newer than the target day and repeats the
    cursor it was asked with as its hint. *)
Definition stalled_feed (subsection : string) (n : nat) (before : Z)
  : response :=
  JsonObject (Some [story "101" "Thu Jun 12, 9:00AM CDT" "Barchart"])
    (JsonInt before).

(** Every page holds one item of the target day and no hint. *)
Definition hintless_feed (subsection : string) (n : nat) (before : Z)
  : response :=
  JsonObject (Some [story "202" "Wed Jun 11, 9:00AM CDT" "Barchart"]) JsonNull.

(** Every page holds one item of another feed and no hint. *)
Definition foreign_feed (subsection : string) (n : nat) (before : Z)
  : response :=
  JsonObject (Some [story "303" "Wed Jun 11, 9:00AM CDT" "Associated Press"])
    JsonNull.

(** A reply without content and without hint after one page. *)
Definition short_feed (subsection : string) (n : nat) (before : Z)
  : response :=
  match n with
  | 1%nat =>
      JsonObject (Some [story "1" "Wed Jun 11, 5:00PM CDT" "Barchart"])
        (JsonInt 1749664800)
  | _ => JsonObject None (JsonStr "")
  end.

(** An empty JSON object after one page. *)
Definition empty_reply_feed (subsection : string) (n : nat) (before : Z)
  : response :=
  match n with
  | 1%nat =>
      JsonObject (Some [story "1" "Wed Jun 11, 5:00PM CDT" "Barchart"])
        (JsonInt 1749664800)
  | _ => EmptyJson
  end.

(** A harvest of the subsection all-commodities in 2025, with the default
    count limit and no token supplied. *)
Abbreviation run feed max_api_calls target_date_str :=
  (fetch_barchart_news_run (date_parser_parse 2025) 2025 1749700000 handshake
     feed max_api_calls "all-commodities" target_date_str 30 None).

End Mock.

(** ** Notions the properties are stated with *)

Local Open Scope list_scope.

(** The ids of a list of collected items, as a set. *)
Definition ids_of (items : list news_item) : gset string :=
  list_to_set (item_id <$> items).

Definition in_window (s e : Z) (item : news_item) : Prop :=
  s <= item_published_timestamp_utc item <= e.

(** Consecutive elements of a list of cursors. *)
Definition consecutive (l : list Z) (i : nat) (a b : Z) : Prop :=
  l !! i = Some a ∧ l !! S i = Some b.

Definition strictly_decreasing (l : list Z) : Prop :=
  ∀ i a b, consecutive l i a b → b < a.

(** A hint or a batch minimum makes strict progress from a cursor. *)
Definition hint_progress (before : Z) (t : json_timestamp) : Prop :=
  truthy_timestamp t = true
  ∧ ∃ n, int_of_timestamp t = Some n ∧ n < before.

Definition minimum_progress (before : Z) (m : option Z) : Prop :=
  ∃ n, m = Some n ∧ n < before.

(** The character of a decimal digit, and a calendar date written YYYYMMDD
    (zero-padded). *)
Definition digit_char (n : Z) : ascii := ascii_of_N (Z.to_N (48 + n)).

Definition two_digits (n : Z) (rest : string) : string :=
  String (digit_char (n / 10)) (String (digit_char (n mod 10)) rest).

Definition yyyymmdd (y m d : Z) : string :=
  two_digits (y / 100)
    (two_digits (y mod 100) (two_digits m (two_digits d EmptyString))).

(** The civil date and time of day of an instant (whole seconds since the
    epoch) at a UTC offset: what [datetime.fromtimestamp] shows. *)
Definition civil_time (offset t : Z) : Z * Z * Z * Z * Z * Z :=
  let local := t + offset in
  let '(y, m, d) :=
    PyDatetime._ord2ymd (local / 86400 + PyDatetime._EPOCH_ORDINAL) in
  let s := local mod 86400 in
  (y, m, d, s / 3600, s mod 3600 / 60, s mod 60).

(** The day after a date. *)
Definition next_day (y m d : Z) : Z * Z * Z :=
  if d <? PyDatetime._days_in_month y m then (y, m, d + 1)
  else if m <? 12 then (y, m + 1, 1)
  else (y + 1, 1, 1).

(** The month and the day from the offset in the year: the last steps of
    [_ord2ymd]. *)
Definition month_day (leapyear : bool) (n : Z) : Z * Z :=
  let month := Z.shiftr (n + 50) 5 in
  let preceding :=
    PyDatetime._DAYS_BEFORE_MONTH month
    + (if (2 <? month) && leapyear then 1 else 0) in
  if n <? preceding then
    let month' := month - 1 in
    let preceding' :=
      preceding
      - (PyDatetime._DAYS_IN_MONTH month'
         + (if (month' =? 2) && leapyear then 1 else 0)) in
    (month', n - preceding' + 1)
  else (month, n - preceding + 1).

(** Whether a date string holds an AM or PM marker: the test of the
    normalizer. *)
Definition has_am_pm (s : string) : bool :=
  negb ((Py.find (Py.lower s) "am" =? -1) && (Py.find (Py.lower s) "pm" =? -1)).

(** A date string without a time of day: no AM or PM marker and no explicit
    clock time.  What counts as an explicit clock time is the parser's
    matter and is a parameter. *)
Definition no_time_of_day (has_clock_time : string -> bool) (s : string)
  : Prop :=
  has_am_pm s = false ∧ has_clock_time s = false.

(** A feed that never signals exhaustion: every reply (to a cursor the
    progress message can format) is a page with content or a hint, none of
    its candidates is older than the target day, and its hint is an instant
    the progress message can format. *)
Definition feed_never_ends
    (date_parser_parse : string -> option PyDatetime.datetime)
    (current_year : Z) (session_post : string -> nat -> Z -> response)
    (subsection : string) (w : window) : Prop :=
  ∀ (n : nat) (before : Z),
    fromtimestamp_utc_ok before = true →
    ∃ content t,
      session_post subsection n before = JsonObject content t
      ∧ (is_Some content ∨ truthy_timestamp t = true)
      ∧ (∀ story_div c,
           story_div ∈ default [] content →
           extract_candidate date_parser_parse current_year story_div = Some c →
           older_than_target w (current_item_ts_utc c) = false)
      ∧ (∀ z, int_of_timestamp t = Some z → fromtimestamp_utc_ok z = true).

(** No page of the feed has more than [p] stories. *)
Definition page_size_at_most (session_post : string -> nat -> Z -> response)
    (subsection : string) (p : nat) : Prop :=
  ∀ (n : nat) (before : Z) content t,
    session_post subsection n before = JsonObject content t →
    (length (default [] content) ≤ p)%nat.

(** What the loop invariants say of the collected items and the seen ids. *)
Record collected_ok (w : window) (items : list news_item) (ids : gset string)
  : Prop := mk_collected_ok {
  ok_ids : ids = ids_of items;
  ok_nodup : NoDup (item_id <$> items);
  ok_window :
    Forall
      (fun item =>
         passes_date_filter w (item_published_timestamp_utc item) = true)
      items
}.

(** * Properties of the harvest *)

Section HarvestProperties.

Variable date_parser_parse : string -> option PyDatetime.datetime.
Variable current_year : Z.
Variable now_utc_timestamp : Z.
Variable get_initial_cookies_and_xsrf : string -> option string.
Variable session_post : string -> nat -> Z -> response.
Variable max_api_calls : nat.

Local Abbreviation extract := (extract_candidate date_parser_parse current_year).
Local Abbreviation stories_pass := (process_stories date_parser_parse current_year).
Local Abbreviation pass :=
  (api_call date_parser_parse current_year session_post).
Local Abbreviation loop :=
  (while_loop date_parser_parse current_year session_post).
Local Abbreviation harvest_of :=
  (harvest_from date_parser_parse current_year get_initial_cookies_and_xsrf
     session_post max_api_calls).
Local Abbreviation run :=
  (fetch_barchart_news_run date_parser_parse current_year now_utc_timestamp
     get_initial_cookies_and_xsrf session_post max_api_calls).

(** *** One candidate *)

Lemma ids_of_snoc (items : list news_item) (item : news_item) :
  ids_of (items ++ [item]) = {[item_id item]} ∪ ids_of items.
Proof.
  unfold ids_of. rewrite fmap_app, list_to_set_app_L. simpl.
  rewrite (right_id_L ∅ (∪)). apply (comm_L (∪)).
Qed.

Lemma elem_of_ids_of (items : list news_item) (id : string) :
  id ∈ ids_of items ↔ ∃ item, item ∈ items ∧ item_id item = id.
Proof.
  unfold ids_of. rewrite elem_of_list_to_set, list_elem_of_fmap.
  split; intros (item & H1 & H2); exists item; auto.
Qed.

(** The three ways a candidate leaves the loop variables. *)
Lemma process_candidate_cases (w : window) (c : candidate) (b : batch_state) :
  let b' := process_candidate w c b in
  ((older_than_target w (current_item_ts_utc c) = true
    ∧ broke b' = true
    ∧ batch_items b' = batch_items b ∧ batch_ids b' = batch_ids b)
   ∨ (older_than_target w (current_item_ts_utc c) = false
      ∧ (news_id c ∉ batch_ids b)
      ∧ passes_date_filter w (current_item_ts_utc c) = true
      ∧ broke b' = false
      ∧ batch_items b' = batch_items b ++ [item_of_candidate c]
      ∧ batch_ids b' = {[news_id c]} ∪ batch_ids b)
   ∨ (older_than_target w (current_item_ts_utc c) = false
      ∧ (news_id c ∈ batch_ids b
         ∨ passes_date_filter w (current_item_ts_utc c) = false)
      ∧ broke b' = false
      ∧ batch_items b' = batch_items b ∧ batch_ids b' = batch_ids b)).
Proof.
  unfold process_candidate.
  destruct (older_than_target w (current_item_ts_utc c)) eqn:Hold; simpl.
  { left. auto. }
  destruct (decide (news_id c ∈ batch_ids b)) as [Hin | Hin].
  - rewrite bool_decide_eq_false_2 by (intros Hn; exact (Hn Hin)). simpl.
    right. right. auto.
  - rewrite bool_decide_eq_true_2 by exact Hin. simpl.
    destruct (passes_date_filter w (current_item_ts_utc c)) eqn:Hpass; simpl.
    + right. left. auto 10.
    + right. right. auto 10.
Qed.

Lemma process_candidate_ok (w : window) (c : candidate) (b : batch_state) :
  collected_ok w (batch_items b) (batch_ids b) →
  collected_ok w (batch_items (process_candidate w c b))
    (batch_ids (process_candidate w c b)).
Proof.
  intros [Hids Hnd Hwin].
  destruct (process_candidate_cases w c b)
    as [(_ & _ & Hi & Hs) | [(_ & Hnew & Hpass & _ & Hi & Hs) | (_ & _ & _ & Hi & Hs)]];
    rewrite Hi, Hs; try (split; assumption).
  split.
  - rewrite ids_of_snoc. simpl. by rewrite Hids.
  - rewrite fmap_app. apply NoDup_app. split; [exact Hnd |]. split.
    + intros x Hx Hx'. simpl in Hx'. apply list_elem_of_singleton in Hx'.
      subst x. apply Hnew. rewrite Hids. unfold ids_of.
      by apply elem_of_list_to_set.
    + simpl. apply NoDup_singleton.
  - apply Forall_app. split; [exact Hwin |].
    apply Forall_singleton. exact Hpass.
Qed.

(** *** One page *)

Lemma process_stories_ok (w : window) (stories : list story_div)
    (b : batch_state) :
  collected_ok w (batch_items b) (batch_ids b) →
  collected_ok w (batch_items (stories_pass w stories b))
    (batch_ids (stories_pass w stories b)).
Proof.
  revert b. induction stories as [| s rest IH]; intros b Hb; simpl.
  - exact Hb.
  - destruct (extract s) as [c |]; [| by apply IH].
    destruct (broke (process_candidate w c b)).
    + by apply process_candidate_ok.
    + apply IH. by apply process_candidate_ok.
Qed.

(** *** One pass of the loop *)

(** A pass either stops without a page, or runs the stories of a page. *)
Lemma api_call_cases (subsection : string) (w : window) (limit : Z)
    (st : loop_state) :
  let st' := pass subsection w limit st in
  let before := current_before_timestamp st in
  api_call_num st' = S (api_call_num st)
  ∧ ((fromtimestamp_utc_ok before = false
      ∧ stop_fetching st' = Some UncaughtException
      ∧ posted st' = posted st
      ∧ current_before_timestamp st' = before
      ∧ all_news_items st' = all_news_items st
      ∧ processed_news_ids st' = processed_news_ids st)
     ∨ (fromtimestamp_utc_ok before = true
        ∧ posted st' = posted st ++ [before]
        ∧ ((stop_fetching st' = Some TransportError
            ∧ (∀ content t,
                 session_post subsection (S (api_call_num st)) before
                 ≠ JsonObject content t)
            ∧ current_before_timestamp st' = before
            ∧ all_news_items st' = all_news_items st
            ∧ processed_news_ids st' = processed_news_ids st)
           ∨ ∃ content t,
               session_post subsection (S (api_call_num st)) before
               = JsonObject content t
               ∧ let b :=
                   stories_pass w (default [] content)
                     (initial_batch_state st) in
                 all_news_items st' = batch_items b
                 ∧ processed_news_ids st' = batch_ids b
                 ∧ ((content = None ∧ truthy_timestamp t = false
                     ∧ stop_fetching st' = Some ExhaustedFeed
                     ∧ current_before_timestamp st' = before)
                    ∨ ((is_Some content ∨ truthy_timestamp t = true)
                       ∧ broke b = true
                       ∧ stop_fetching st' = Some BelowWindow
                       ∧ current_before_timestamp st' = before)
                    ∨ ((is_Some content ∨ truthy_timestamp t = true)
                       ∧ broke b = false
                       ∧ current_before_timestamp st'
                         = next_before_timestamp before t
                             (earliest_valid_ts_in_batch_for_fallback b)
                       ∧ stop_fetching st'
                         = if bool_decide (w = None)
                              && (limit <=? Z.of_nat (length (batch_items b)))
                           then Some LimitReached else None))))).
Proof.
  unfold api_call. cbv zeta.
  destruct (fromtimestamp_utc_ok (current_before_timestamp st)) eqn:Hok;
    simpl.
  2: { split; [reflexivity |]. left. auto 10. }
  destruct (session_post subsection (S (api_call_num st))
              (current_before_timestamp st)) as [| | | content t] eqn:Hpost;
    simpl.
  1-3: split; [reflexivity |]; right; split; [reflexivity |];
       split; [reflexivity |]; left; repeat split; auto;
       intros ? ?; discriminate.
  assert (Hcases :
    (content = None ∧ truthy_timestamp t = false)
    ∨ (is_Some content ∨ truthy_timestamp t = true)).
  { destruct content; [right; left; eauto |].
    destruct (truthy_timestamp t); auto. }
  destruct Hcases as [[-> Ht] | Hsome].
  - rewrite bool_decide_eq_false_2 by (intros [? ?]; discriminate).
    rewrite Ht. simpl.
    split; [reflexivity |]. right. split; [reflexivity |].
    split; [reflexivity |]. right. exists None, t.
    split; [reflexivity |]. simpl. auto 10.
  - assert (Hne :
      negb (bool_decide (is_Some content)) && negb (truthy_timestamp t)
      = false).
    { destruct Hsome as [Hc | Ht].
      - by rewrite bool_decide_eq_true_2.
      - rewrite Ht. apply andb_false_r. }
    rewrite Hne.
    destruct (broke (stories_pass w (default [] content)
                       (initial_batch_state st))) eqn:Hb; simpl.
    + split; [reflexivity |]. right. split; [reflexivity |].
      split; [reflexivity |]. right. exists content, t.
      split; [reflexivity |]. simpl. rewrite Hb. auto 10.
    + split; [reflexivity |]. right. split; [reflexivity |].
      split; [reflexivity |]. right. exists content, t.
      split; [reflexivity |]. simpl. rewrite Hb.
      split; [reflexivity |]. split; [reflexivity |].
      right. right. auto.
Qed.

Lemma api_call_ok (subsection : string) (w : window) (limit : Z)
    (st : loop_state) :
  collected_ok w (all_news_items st) (processed_news_ids st) →
  collected_ok w (all_news_items (pass subsection w limit st))
    (processed_news_ids (pass subsection w limit st)).
Proof.
  intros Hst.
  destruct (api_call_cases subsection w limit st) as [_ Hc].
  destruct Hc as [(_ & _ & _ & _ & Hi & Hs) | (_ & _ & Hc)].
  { by rewrite Hi, Hs. }
  destruct Hc as [(_ & _ & _ & Hi & Hs) | (content & t & _ & Hb)].
  { by rewrite Hi, Hs. }
  cbv zeta in Hb. destruct Hb as (Hi & Hs & _). rewrite Hi, Hs.
  by apply process_stories_ok.
Qed.

(** *** The loop *)

Lemma while_loop_stopped (n : nat) (subsection : string) (w : window)
    (limit : Z) (st : loop_state) :
  stop_fetching st ≠ None → loop n subsection w limit st = st.
Proof.
  intros Hstop. destruct n as [| n]; simpl; [reflexivity |].
  destruct (stop_fetching st); [reflexivity | congruence].
Qed.

Lemma while_loop_running (n : nat) (subsection : string) (w : window)
    (limit : Z) (st : loop_state) :
  stop_fetching st = None →
  loop (S n) subsection w limit st
  = loop n subsection w limit (pass subsection w limit st).
Proof. intros Hrun. simpl. by rewrite Hrun. Qed.

Lemma while_loop_add (n m : nat) (subsection : string) (w : window)
    (limit : Z) (st : loop_state) :
  loop (n + m) subsection w limit st
  = loop m subsection w limit (loop n subsection w limit st).
Proof.
  revert st. induction n as [| n IH]; intros st; [reflexivity |].
  destruct (stop_fetching st) as [r |] eqn:Hstop.
  - assert (Hne : stop_fetching st ≠ None) by congruence.
    rewrite (while_loop_stopped (S n + m)) by exact Hne.
    rewrite (while_loop_stopped (S n)) by exact Hne.
    by rewrite while_loop_stopped by exact Hne.
  - change (S n + m)%nat with (S (n + m)).
    rewrite !while_loop_running by exact Hstop. apply IH.
Qed.

(** The induction principle of the loop: what every pass preserves holds
    when the loop ends. *)
Lemma while_loop_ind (P : loop_state → Prop) (subsection : string)
    (w : window) (limit : Z) :
  (∀ st, stop_fetching st = None → P st → P (pass subsection w limit st)) →
  ∀ n st, P st → P (loop n subsection w limit st).
Proof.
  intros Hpass n. induction n as [| n IH]; intros st Hst; simpl.
  - exact Hst.
  - destruct (stop_fetching st) eqn:Hstop; [exact Hst |].
    apply IH. by apply Hpass.
Qed.

Lemma while_loop_ok (n : nat) (subsection : string) (w : window) (limit : Z)
    (c0 : Z) :
  let st := loop n subsection w limit (initial_loop_state c0) in
  collected_ok w (all_news_items st) (processed_news_ids st).
Proof.
  cbv zeta.
  apply (while_loop_ind
           (fun st => collected_ok w (all_news_items st) (processed_news_ids st))).
  - intros st _. apply api_call_ok.
  - split; simpl; [reflexivity | apply NoDup_nil_2 | apply Forall_nil_2].
Qed.

Lemma posted_prefix (n : nat) (subsection : string) (w : window) (limit : Z)
    (st : loop_state) :
  posted st `prefix_of` posted (loop n subsection w limit st).
Proof.
  revert st. induction n as [| n IH]; intros st; simpl; [reflexivity |].
  destruct (stop_fetching st); [reflexivity |].
  etrans; [| apply IH].
  destruct (api_call_cases subsection w limit st) as [_ Hc].
  destruct Hc as [(_ & _ & Hp & _) | (_ & Hp & _)]; rewrite Hp.
  - reflexivity.
  - by apply prefix_app_r.
Qed.

(** The loop counts its passes, and posts once in every pass that gets as
    far as the request. *)
Lemma while_loop_counts (n : nat) (subsection : string) (w : window)
    (limit : Z) (c0 : Z) :
  let st := loop n subsection w limit (initial_loop_state c0) in
  (length (posted st) ≤ api_call_num st)%nat
  ∧ (api_call_num st ≤ n)%nat
  ∧ (stop_fetching st = None →
     api_call_num st = n ∧ length (posted st) = n).
Proof.
  cbv zeta. induction n as [| n IH].
  { simpl. auto. }
  replace (S n) with (n + 1)%nat by lia. rewrite while_loop_add.
  set (st := loop n subsection w limit (initial_loop_state c0)) in *.
  destruct IH as (Hlen & Hnum & Hrun).
  destruct (stop_fetching st) as [r |] eqn:Hstop.
  - rewrite while_loop_stopped by congruence.
    rewrite Hstop. split; [lia |]. split; [lia |]. discriminate.
  - rewrite while_loop_running by exact Hstop. simpl.
    destruct (Hrun eq_refl) as [Hn Hl].
    destruct (api_call_cases subsection w limit st) as [Hnum' Hc].
    rewrite Hnum', Hn.
    destruct Hc as [(_ & Hs & Hp & _) | (_ & Hp & _)]; rewrite Hp.
    + rewrite Hs. split; [lia |]. split; [lia |]. discriminate.
    + rewrite length_app. simpl. lia.
Qed.

(** What it means that a cursor was posted: the loop was running with it
    before that pass. *)
Lemma posted_lookup (n : nat) (subsection : string) (w : window) (limit : Z)
    (c0 : Z) (i : nat) (a : Z) :
  posted (loop n subsection w limit (initial_loop_state c0)) !! i = Some a →
  let st := loop i subsection w limit (initial_loop_state c0) in
  (i < n)%nat
  ∧ stop_fetching st = None
  ∧ api_call_num st = i
  ∧ length (posted st) = i
  ∧ current_before_timestamp st = a
  ∧ fromtimestamp_utc_ok a = true
  ∧ posted (pass subsection w limit st) = posted st ++ [a]
  ∧ loop n subsection w limit (initial_loop_state c0)
    = loop (n - S i) subsection w limit (pass subsection w limit st).
Proof.
  intros Hlook. cbv zeta.
  pose proof (while_loop_counts n subsection w limit c0) as (Hl & Hn & _).
  cbv zeta in Hl, Hn.
  pose proof (lookup_lt_Some _ _ _ Hlook) as Hlt.
  assert (Hin : (i < n)%nat) by lia.
  split; [exact Hin |].
  replace n with (i + S (n - S i))%nat in Hlook |- * at 1 by lia.
  replace n with (i + S (n - S i))%nat at 2 by lia.
  rewrite while_loop_add in Hlook |- *.
  pose proof (while_loop_counts i subsection w limit c0) as (Hli & Hni & Hri).
  cbv zeta in Hli, Hni, Hri.
  set (st := loop i subsection w limit (initial_loop_state c0)) in *.
  destruct (stop_fetching st) as [r |] eqn:Hstop.
  { rewrite while_loop_stopped in Hlook by congruence.
    apply lookup_lt_Some in Hlook. lia. }
  destruct (Hri eq_refl) as [Hnum Hlen].
  rewrite while_loop_running in Hlook |- * by exact Hstop.
  destruct (api_call_cases subsection w limit st) as [_ Hc].
  destruct Hc as [(_ & Hs & Hp & _) | (Hok & Hp & _)].
  { rewrite while_loop_stopped in Hlook by congruence.
    rewrite Hp in Hlook. apply lookup_lt_Some in Hlook. lia. }
  assert (Ha : current_before_timestamp st = a).
  { pose proof (posted_prefix (n - S i) subsection w limit
                  (pass subsection w limit st)) as Hpre.
    assert (Hi : posted (pass subsection w limit st) !! i
                 = Some (current_before_timestamp st)).
    { rewrite Hp. rewrite lookup_app_r by lia.
      replace (i - length (posted st))%nat with O by lia. reflexivity. }
    pose proof (prefix_lookup_Some _ _ _ _ Hi Hpre) as Hi'.
    congruence. }
  rewrite <- Ha. repeat split; try assumption; try reflexivity.
  f_equal. lia.
Qed.

(** *** The whole function *)

Lemma filter_Forall_id {A : Type} (P : A → Prop) `{!∀ x, Decision (P x)}
    (l : list A) :
  Forall P l → filter P l = l.
Proof.
  induction 1 as [| x l Hx _ IH]; [reflexivity |].
  rewrite filter_cons. destruct (decide (P x)); [by rewrite IH | done].
Qed.

(** The final filter removes nothing from what the loop collected. *)
Lemma final_filter_collected (w : window) (items : list news_item)
    (ids : gset string) :
  collected_ok w items ids → final_filter w items = items.
Proof.
  intros [_ _ Hwin]. destruct w as [[s e] |]; simpl; [| reflexivity].
  destruct (_ && _); [| reflexivity].
  apply filter_Forall_id. exact Hwin.
Qed.

Lemma final_filter_in_window (s e : Z) (items : list news_item)
    (ids : gset string) :
  collected_ok (Some (s, e)) items ids →
  Forall (in_window s e) (final_filter (Some (s, e)) items).
Proof.
  intros Hok. rewrite (final_filter_collected _ _ _ Hok).
  destruct Hok as [_ _ Hwin]. eapply Forall_impl; [exact Hwin |].
  intros item Hitem. simpl in Hitem. unfold in_window. lia.
Qed.

Lemma harvest_from_cases (subsection : string) (w : window) (limit : Z)
    (initial_xsrf_token : option string) (c0 : Z) :
  let h := harvest_of subsection w limit initial_xsrf_token c0 in
  let st := loop max_api_calls subsection w limit (initial_loop_state c0) in
  h = mk_harvest (Returned []) [] AuthError
  ∨ (before_values h = posted st
     ∧ ((stop_fetching st = Some UncaughtException
         ∧ news h = Raised ∧ reason h = UncaughtException)
        ∨ (stop_fetching st ≠ Some UncaughtException
           ∧ news h = Returned (all_news_items st)
           ∧ reason h = default SafetyLimitReached (stop_fetching st)))).
Proof.
  cbv zeta. unfold harvest_from.
  pose proof (while_loop_ok max_api_calls subsection w limit c0) as Hok.
  cbv zeta in Hok. apply final_filter_collected in Hok.
  destruct (obtain_xsrf_token _ _ _) as [t |]; [| by left].
  destruct (Py.truthy_str t); [| by left].
  right. rewrite Hok.
  destruct (stop_fetching (loop _ _ _ _ _)) as [[] |] eqn:Hstop; simpl;
    (split; [reflexivity |]); try (right; done). left. done.
Qed.

Lemma run_cases (subsection : string) (target_date_str : option string)
    (limit : Z) (initial_xsrf_token : option string) :
  let h := run subsection target_date_str limit initial_xsrf_token in
  (before_values h = [] ∧ reason h ≠ SafetyLimitReached
   ∧ (news h = Raised ∨ news h = Returned []))
  ∨ ∃ w c0,
      initial_setup now_utc_timestamp target_date_str = SetupDone w c0
      ∧ h = harvest_of subsection w limit initial_xsrf_token c0.
Proof.
  cbv zeta. unfold fetch_barchart_news_run.
  destruct (initial_setup now_utc_timestamp target_date_str) as [| | w c0].
  - left. simpl. auto.
  - left. simpl. auto.
  - right. eauto.
Qed.

(** The bounds a configured window comes with. *)
Lemma initial_setup_window (target_date_str : option string) (s e c0 : Z) :
  initial_setup now_utc_timestamp target_date_str = SetupDone (Some (s, e)) c0 →
  s ≠ 0 ∧ e ≠ 0 ∧ c0 = e + 1.
Proof.
  unfold initial_setup. intros H.
  destruct (match target_date_str with
            | Some s0 => Py.truthy_str s0 | None => false end);
    [| discriminate].
  destruct (date_str_to_timestamps_for_day _) as [[[s' |] [e' |]] |];
    try discriminate.
  destruct (Py.truthy_int s' && Py.truthy_int e') eqn:Ht; [| discriminate].
  destruct (_ && _ && _); [| discriminate].
  injection H as -> -> <-.
  apply andb_true_iff in Ht as [Hs He]. unfold Py.truthy_int in Hs, He.
  apply negb_true_iff in Hs, He. lia.
Qed.

(** C10: an id enters the seen-ids set only when its record is accepted: at
    every point of a harvest (after any number of passes of the loop, and
    inside a page after any stories) the seen-ids set is exactly the set
    of ids of the collected records; a candidate rejected because its id was
    seen or because its timestamp fails the date filter leaves both the set
    and the sequence unchanged, and any other candidate is appended together
    with its id. *)
Theorem C10_seen_ids_are_collected_ids :
  ∀ (subsection : string) (w : window) (limit c0 : Z) (n : nat)
    (stories : list story_div),
    let st := loop n subsection w limit (initial_loop_state c0) in
    let b := stories_pass w stories (initial_batch_state st) in
    processed_news_ids st = ids_of (all_news_items st)
    ∧ batch_ids b = ids_of (batch_items b)
    ∧ ∀ c : candidate,
        let b' := process_candidate w c b in
        batch_ids b' = ids_of (batch_items b')
        ∧ ((news_id c ∈ batch_ids b
            ∨ passes_date_filter w (current_item_ts_utc c) = false) →
           batch_items b' = batch_items b ∧ batch_ids b' = batch_ids b)
        ∧ (batch_ids b' ≠ batch_ids b →
           batch_items b' = batch_items b ++ [item_of_candidate c]
           ∧ batch_ids b' = {[news_id c]} ∪ batch_ids b).
Proof.
  intros subsection w limit c0 n stories st b.
  pose proof (while_loop_ok n subsection w limit c0) as Hst.
  cbv zeta in Hst. fold st in Hst.
  assert (Hb : collected_ok w (batch_items b) (batch_ids b)).
  { apply process_stories_ok. exact Hst. }
  split; [apply Hst |]. split; [apply Hb |].
  intros c b'. split; [apply (process_candidate_ok w c b Hb) |].
  destruct (process_candidate_cases w c b)
    as [(Hold & _ & Hi & Hs) | [(_ & Hnew & Hpass & _ & Hi & Hs) | (_ & _ & _ & Hi & Hs)]];
    fold b' in Hi, Hs.
  - split; [auto |]. intros Hne. congruence.
  - split; [| auto]. intros [Hin | Hf]; [done | congruence].
  - split; [auto |]. intros Hne. congruence.
Qed.

Lemma older_fails_date_filter (w : window) (ts : Z) :
  older_than_target w ts = true → passes_date_filter w ts = false.
Proof.
  destruct w as [[s e] |]; simpl; [| discriminate].
  intros H. apply andb_true_iff in H as [_ H].
  apply andb_false_iff. left. lia.
Qed.

Lemma snoc_neq_self {A : Type} (l : list A) (x : A) : l ≠ l ++ [x].
Proof.
  intros H. apply (f_equal length) in H. rewrite length_app in H.
  simpl in H. lia.
Qed.

(** The list a run returns is the list its loop collected. *)
Lemma run_returned (subsection : string) (target_date_str : option string)
    (limit : Z) (initial_xsrf_token : option string) (l : list news_item) :
  news (run subsection target_date_str limit initial_xsrf_token) = Returned l →
  l = []
  ∨ ∃ w c0,
      initial_setup now_utc_timestamp target_date_str = SetupDone w c0
      ∧ l = all_news_items
              (loop max_api_calls subsection w limit (initial_loop_state c0)).
Proof.
  intros Hl.
  destruct (run_cases subsection target_date_str limit initial_xsrf_token)
    as [(_ & _ & [Hr | Hr]) | (w & c0 & Hsetup & Hh)]; cbv zeta in *.
  - congruence.
  - left. congruence.
  - rewrite Hh in Hl.
    destruct (harvest_from_cases subsection w limit initial_xsrf_token c0)
      as [Ha | (_ & [(_ & Hr & _) | (_ & Hr & _)])]; cbv zeta in *.
    + rewrite Ha in Hl. simpl in Hl. left. congruence.
    + congruence.
    + right. exists w, c0. split; [exact Hsetup | congruence].
Qed.

(** C7 (as amended): a candidate that reaches the acceptance test is
    appended to the collected items if and only if its id is not in the
    seen-ids set and its timestamp passes the date filter (always, without a
    target date; inside the target day otherwise); being appended puts its
    id in the set at once; and the list a harvest returns has no two
    records with the same id. *)
Theorem C7_accepted_iff_unseen_and_in_window :
  (∀ (w : window) (c : candidate) (b : batch_state),
     let b' := process_candidate w c b in
     (batch_items b' = batch_items b ++ [item_of_candidate c]
      ↔ (news_id c ∉ batch_ids b)
        ∧ passes_date_filter w (current_item_ts_utc c) = true)
     ∧ (batch_items b' = batch_items b ++ [item_of_candidate c]
        ∨ batch_items b' = batch_items b)
     ∧ (batch_items b' = batch_items b ++ [item_of_candidate c] →
        news_id c ∈ batch_ids b'))
  ∧ (∀ (subsection : string) (target_date_str : option string) (limit : Z)
       (initial_xsrf_token : option string) (l : list news_item),
       news (run subsection target_date_str limit initial_xsrf_token)
       = Returned l →
       NoDup (item_id <$> l)).
Proof.
  split.
  - intros w c b b'.
    destruct (process_candidate_cases w c b)
      as [(Hold & _ & Hi & Hs) | [(_ & Hnew & Hpass & _ & Hi & Hs) | (_ & Hrej & _ & Hi & Hs)]];
      fold b' in Hi, Hs; rewrite Hi, Hs.
    + apply older_fails_date_filter in Hold.
      split; [| split]; [| by right |].
      * split; [intros H; by apply snoc_neq_self in H |].
        intros [_ H]. congruence.
      * intros H. by apply snoc_neq_self in H.
    + split; [| split]; [| by left |].
      * split; auto.
      * intros _. apply elem_of_union_l. by apply elem_of_singleton.
    + split; [| split]; [| by right |].
      * split; [intros H; by apply snoc_neq_self in H |].
        intros [H1 H2]. destruct Hrej; [done | congruence].
      * intros H. by apply snoc_neq_self in H.
  - intros subsection target_date_str limit tok l Hl.
    apply run_returned in Hl as [-> | (w & c0 & _ & ->)].
    + simpl. apply NoDup_nil_2.
    + apply (while_loop_ok max_api_calls subsection w limit c0).
Qed.

(** C6: with a target day, every record of the returned list has its
    timestamp between the start and the end of the day: the loop only
    collects such records, so the final pass, which keeps only such
    records of whatever list it is given, removes nothing; without a
    target day neither the loop nor the final pass looks at the timestamp:
    every candidate with an unseen id is collected and none ends the
    harvest. *)
Theorem C6_window_containment :
  (∀ (subsection : string) (target_date_str : option string) (limit : Z)
     (initial_xsrf_token : option string) (s e c0 : Z) (l : list news_item),
     initial_setup now_utc_timestamp target_date_str
     = SetupDone (Some (s, e)) c0 →
     news (run subsection target_date_str limit initial_xsrf_token)
     = Returned l →
     Forall (in_window s e) l)
  ∧ (∀ (subsection : string) (limit s e c0 : Z) (n : nat),
       let st :=
         loop n subsection (Some (s, e)) limit (initial_loop_state c0) in
       Forall (in_window s e) (all_news_items st)
       ∧ final_filter (Some (s, e)) (all_news_items st) = all_news_items st)
  ∧ (∀ (s e : Z) (items : list news_item),
       s ≠ 0 → e ≠ 0 →
       Forall (in_window s e) (final_filter (Some (s, e)) items))
  ∧ (∀ (c : candidate) (b : batch_state),
       let b' := process_candidate None c b in
       broke b' = false
       ∧ batch_items b'
         = if bool_decide (news_id c ∈ batch_ids b) then batch_items b
           else batch_items b ++ [item_of_candidate c])
  ∧ (∀ items : list news_item, final_filter None items = items).
Proof.
  assert (Hloop : ∀ (subsection : string) (limit s e c0 : Z) (n : nat),
    let st := loop n subsection (Some (s, e)) limit (initial_loop_state c0) in
    Forall (in_window s e) (all_news_items st)
    ∧ final_filter (Some (s, e)) (all_news_items st) = all_news_items st).
  { intros subsection limit s e c0 n st.
    pose proof (while_loop_ok n subsection (Some (s, e)) limit c0) as Hok.
    cbv zeta in Hok. fold st in Hok.
    pose proof (final_filter_in_window _ _ _ _ Hok) as Hin.
    rewrite (final_filter_collected _ _ _ Hok) in Hin |- *. auto. }
  split; [| split; [exact Hloop | split; [| split]]].
  - intros subsection target_date_str limit tok s e c0 l Hsetup Hl.
    apply run_returned in Hl as [-> | (w & c1 & Hsetup' & ->)].
    + apply Forall_nil_2.
    + rewrite Hsetup in Hsetup'. injection Hsetup' as <- <-.
      apply Hloop.
  - intros s e items Hs He. simpl.
    unfold Py.truthy_int.
    destruct (s =? 0) eqn:Hs0; [lia |]. destruct (e =? 0) eqn:He0; [lia |].
    simpl. apply Forall_forall. intros item Hitem.
    apply list_elem_of_filter in Hitem as [Hitem _]. unfold in_window. lia.
  - intros c b. unfold process_candidate. simpl. rewrite andb_true_r.
    destruct (decide (news_id c ∈ batch_ids b)) as [Hin | Hin].
    + rewrite bool_decide_eq_false_2 by (intros Hn; exact (Hn Hin)).
      rewrite bool_decide_eq_true_2 by exact Hin. simpl. auto.
    + rewrite bool_decide_eq_true_2 by exact Hin.
      rewrite bool_decide_eq_false_2 by exact Hin. simpl. auto.
  - reflexivity.
Qed.

(** What a posted cursor says of the run that posted it. *)
Lemma run_posted (subsection : string) (target_date_str : option string)
    (limit : Z) (initial_xsrf_token : option string) (i : nat) (a : Z) :
  let h := run subsection target_date_str limit initial_xsrf_token in
  before_values h !! i = Some a →
  ∃ w c0,
    initial_setup now_utc_timestamp target_date_str = SetupDone w c0
    ∧ let st := loop i subsection w limit (initial_loop_state c0) in
      let final :=
        loop max_api_calls subsection w limit (initial_loop_state c0) in
      (i < max_api_calls)%nat
      ∧ stop_fetching st = None
      ∧ api_call_num st = i
      ∧ length (posted st) = i
      ∧ current_before_timestamp st = a
      ∧ fromtimestamp_utc_ok a = true
      ∧ posted (pass subsection w limit st) = posted st ++ [a]
      ∧ final = loop (max_api_calls - S i) subsection w limit
                  (pass subsection w limit st)
      ∧ before_values h = posted final
      ∧ (stop_fetching final ≠ Some UncaughtException →
         news h = Returned (all_news_items final)
         ∧ reason h = default SafetyLimitReached (stop_fetching final)).
Proof.
  intros h Hlook.
  destruct (run_cases subsection target_date_str limit initial_xsrf_token)
    as [(Hnil & _) | (w & c0 & Hsetup & Hh)]; cbv zeta in *; fold h in Hnil || fold h in Hh.
  { rewrite Hnil in Hlook. discriminate. }
  exists w, c0. split; [exact Hsetup |].
  destruct (harvest_from_cases subsection w limit initial_xsrf_token c0)
    as [Ha | (Hbv & Hres)]; cbv zeta in *; rewrite <- Hh in *.
  { rewrite Ha in Hlook. discriminate. }
  rewrite Hbv in Hlook.
  pose proof (posted_lookup _ _ _ _ _ _ _ Hlook) as Hp. cbv zeta in Hp.
  destruct Hp as (H1 & H2 & H3 & H4 & H5 & H6 & H7 & H8).
  repeat (split; [assumption |]).
  intros Hne. destruct Hres as [(Hs & _) | (_ & Hn & Hr)]; [done | auto].
Qed.

(** Across an append, the [for] loop either broke in the first part or goes
    on with the second. *)
Lemma process_stories_app (w : window) (l1 l2 : list story_div)
    (b : batch_state) :
  broke b = false →
  stories_pass w (l1 ++ l2) b
  = if broke (stories_pass w l1 b) then stories_pass w l1 b
    else stories_pass w l2 (stories_pass w l1 b).
Proof.
  revert b. induction l1 as [| s l1 IH]; intros b Hb; simpl.
  - by rewrite Hb.
  - destruct (extract s) as [c |]; [| by apply IH].
    destruct (broke (process_candidate w c b)) eqn:Hc.
    + by rewrite Hc.
    + by apply IH.
Qed.

(** C3: with a target day, as soon as a page holds a candidate whose
    resolved timestamp is strictly below the start of the day, the harvest
    ends with BelowWindow: the page that holds it is the last one
    requested, and the list returned is the list collected up to the
    stories before that candidate, so that no record after it in the page is
    accepted. *)
Theorem C3_below_window_stops_at_once :
  ∀ (subsection : string) (target_date_str : option string) (limit : Z)
    (initial_xsrf_token : option string) (s e c0 : Z) (i : nat) (a : Z)
    (before_it after_it : list story_div) (story_div : story_div)
    (t : json_timestamp) (c : candidate),
    let h := run subsection target_date_str limit initial_xsrf_token in
    initial_setup now_utc_timestamp target_date_str
    = SetupDone (Some (s, e)) c0 →
    before_values h !! i = Some a →
    session_post subsection (S i) a
    = JsonObject (Some (before_it ++ story_div :: after_it)) t →
    extract story_div = Some c →
    current_item_ts_utc c < s →
    reason h = BelowWindow
    ∧ length (before_values h) = S i
    ∧ news h
      = Returned
          (batch_items
             (stories_pass (Some (s, e)) before_it
                (initial_batch_state
                   (loop i subsection (Some (s, e)) limit
                      (initial_loop_state c0))))).
Proof.
  intros subsection target_date_str limit tok s e c0 i a pre post story t c h
    Hsetup Hlook Hpost Hextract Hold.
  destruct (run_posted _ _ _ _ _ _ Hlook) as (w & c1 & Hsetup' & Hrun).
  rewrite Hsetup in Hsetup'. injection Hsetup' as <- <-.
  cbv zeta in Hrun. fold h in Hrun.
  destruct Hrun as (_ & Hstop & Hnum & Hlen & Hcur & Hok & Hp & Hfinal & Hbv & Hres).
  set (st := loop i subsection (Some (s, e)) limit (initial_loop_state c0)) in *.
  destruct (initial_setup_window _ _ _ _ Hsetup) as (Hs0 & _ & _).
  set (b1 := stories_pass (Some (s, e)) pre (initial_batch_state st)).
  assert (Hb :
    let b := stories_pass (Some (s, e)) (pre ++ story :: post)
               (initial_batch_state st) in
    broke b = true ∧ batch_items b = batch_items b1).
  { cbv zeta. rewrite process_stories_app by reflexivity. fold b1.
    destruct (broke b1) eqn:Hb1; [auto |].
    simpl. rewrite Hextract.
    destruct (process_candidate_cases (Some (s, e)) c b1)
      as [(_ & Hbr & Hi & _) | [(Hn & _) | (Hn & _)]].
    - rewrite Hbr. auto.
    - simpl in Hn. unfold Py.truthy_int in Hn.
      destruct (s =? 0) eqn:E; [lia |]. simpl in Hn. lia.
    - simpl in Hn. unfold Py.truthy_int in Hn.
      destruct (s =? 0) eqn:E; [lia |]. simpl in Hn. lia. }
  cbv zeta in Hb. destruct Hb as [Hbroke Hitems].
  destruct (api_call_cases subsection (Some (s, e)) limit st) as [_ Hc].
  rewrite Hnum, Hcur in Hc. cbv zeta in Hc.
  destruct Hc as [(Hbad & _) | (_ & _ & Hc)]; [congruence |].
  destruct Hc as [(_ & Hno & _) | (content & t' & Hpost' & Hc)].
  { exfalso. eapply Hno. exact Hpost. }
  rewrite Hpost in Hpost'. injection Hpost' as <- <-. simpl in Hc.
  destruct Hc as (Hi & _ & Hc).
  destruct Hc as [(Hnone & _) | [(_ & _ & Hsf & _) | (_ & Hnb & _)]];
    [discriminate | | congruence].
  assert (Hend : loop max_api_calls subsection (Some (s, e)) limit
                   (initial_loop_state c0)
                 = pass subsection (Some (s, e)) limit st).
  { rewrite Hfinal. apply while_loop_stopped. congruence. }
  rewrite Hend in Hbv, Hres.
  destruct Hres as [Hn Hr]; [congruence |].
  rewrite Hr, Hsf, Hbv, Hp, length_app, Hlen, Hn, Hi, Hitems. simpl.
  split; [reflexivity |]. split; [lia | reflexivity].
Qed.

(** C9 (as amended): whenever a fetched page is a non-empty JSON reply that
    carries no HTML content (the entry is missing, null or empty) and no
    next-cursor hint (the entry is missing, null, empty or zero), the harvest
    ends with ExhaustedFeed and that page is the last one requested.  An
    empty JSON reply, which has neither entry, ends the harvest at that
    request too, but as a failed reply (TransportError), not as
    ExhaustedFeed. *)
Theorem C9_no_content_and_no_hint_ends_the_harvest :
  ∀ (subsection : string) (target_date_str : option string) (limit : Z)
    (initial_xsrf_token : option string) (i : nat) (a : Z)
    (t : json_timestamp),
    let h := run subsection target_date_str limit initial_xsrf_token in
    before_values h !! i = Some a →
    (session_post subsection (S i) a = JsonObject None t →
     truthy_timestamp t = false →
     reason h = ExhaustedFeed ∧ length (before_values h) = S i)
    ∧ (session_post subsection (S i) a = EmptyJson →
       reason h = TransportError ∧ length (before_values h) = S i).
Proof.
  intros subsection target_date_str limit tok i a t h Hlook.
  destruct (run_posted _ _ _ _ _ _ Hlook) as (w & c0 & _ & Hrun).
  cbv zeta in Hrun. fold h in Hrun.
  destruct Hrun as (_ & Hstop & Hnum & Hlen & Hcur & Hok & Hp & Hfinal & Hbv & Hres).
  set (st := loop i subsection w limit (initial_loop_state c0)) in *.
  destruct (api_call_cases subsection w limit st) as [_ Hc].
  rewrite Hnum, Hcur in Hc. cbv zeta in Hc.
  destruct Hc as [(Hbad & _) | (_ & _ & Hc)]; [congruence |].
  assert (Hlast : ∀ r,
    stop_fetching (pass subsection w limit st) = Some r →
    r ≠ UncaughtException →
    reason h = r ∧ length (before_values h) = S i).
  { intros r Hsf Hr.
    assert (Hend : loop max_api_calls subsection w limit (initial_loop_state c0)
                   = pass subsection w limit st).
    { rewrite Hfinal. apply while_loop_stopped. congruence. }
    rewrite Hend in Hbv, Hres.
    destruct Hres as [_ Hreason]; [congruence |].
    rewrite Hreason, Hsf, Hbv, Hp, length_app, Hlen. simpl.
    split; [reflexivity | lia]. }
  split.
  - intros Hpost Ht.
    destruct Hc as [(_ & Hno & _) | (content & t' & Hpost' & Hc)].
    { exfalso. eapply Hno. exact Hpost. }
    rewrite Hpost in Hpost'. injection Hpost' as <- <-. simpl in Hc.
    destruct Hc as (_ & _ & Hc).
    destruct Hc as [(_ & _ & Hsf & _) | [([[x Hx] | Ht'] & _) | ([[x Hx] | Ht'] & _)]];
      try discriminate; try congruence.
    apply Hlast; [exact Hsf | discriminate].
  - intros Hpost.
    destruct Hc as [(Hsf & _) | (content & t' & Hpost' & _)];
      [| congruence].
    apply Hlast; [exact Hsf | discriminate].
Qed.

(** *** The cursor *)

Lemma next_before_timestamp_le (before : Z) (t : json_timestamp)
    (m : option Z) :
  next_before_timestamp before t m <= before.
Proof.
  unfold next_before_timestamp.
  destruct (truthy_timestamp t); [| lia].
  destruct (int_of_timestamp t) as [n |]; [| lia].
  destruct (n <? before) eqn:Hn; lia.
Qed.

Lemma next_before_timestamp_hint (before : Z) (t : json_timestamp)
    (m : option Z) :
  hint_progress before t →
  int_of_timestamp t = Some (next_before_timestamp before t m)
  ∧ next_before_timestamp before t m < before.
Proof.
  intros (Ht & n & Hn & Hlt). unfold next_before_timestamp.
  rewrite Ht, Hn. destruct (n <? before) eqn:E; [auto | lia].
Qed.

Lemma next_before_timestamp_stays (before : Z) (t : json_timestamp)
    (m : option Z) :
  ¬ hint_progress before t → next_before_timestamp before t m = before.
Proof.
  intros Hno. unfold next_before_timestamp.
  destruct (truthy_timestamp t) eqn:Ht; [| reflexivity].
  destruct (int_of_timestamp t) as [n |] eqn:Hn; [| reflexivity].
  destruct (n <? before) eqn:E; [| reflexivity].
  exfalso. apply Hno. split; [exact Ht |]. exists n. split; [exact Hn | lia].
Qed.

Lemma run_length (subsection : string) (target_date_str : option string)
    (limit : Z) (initial_xsrf_token : option string) :
  (length
     (before_values (run subsection target_date_str limit initial_xsrf_token))
   ≤ max_api_calls)%nat.
Proof.
  destruct (run_cases subsection target_date_str limit initial_xsrf_token)
    as [(Hnil & _) | (w & c0 & _ & Hh)]; cbv zeta in *.
  { rewrite Hnil. simpl. lia. }
  rewrite Hh.
  destruct (harvest_from_cases subsection w limit initial_xsrf_token c0)
    as [Ha | (Hbv & _)]; cbv zeta in *.
  { rewrite Ha. simpl. lia. }
  rewrite Hbv.
  pose proof (while_loop_counts max_api_calls subsection w limit c0) as Hc.
  cbv zeta in Hc. lia.
Qed.

(** Two cursors posted one after the other: the second is the cursor the
    pass of the first left, and that pass went through a page without
    stopping. *)
Lemma run_consecutive (subsection : string) (target_date_str : option string)
    (limit : Z) (initial_xsrf_token : option string) (i : nat) (a b : Z) :
  consecutive
    (before_values (run subsection target_date_str limit initial_xsrf_token))
    i a b →
  ∃ content t m,
    session_post subsection (S i) a = JsonObject content t
    ∧ b = next_before_timestamp a t m.
Proof.
  intros [Ha Hb].
  destruct (run_posted _ _ _ _ _ _ Ha) as (w & c0 & Hsetup & Hrun).
  destruct (run_posted _ _ _ _ _ _ Hb) as (w' & c0' & Hsetup' & Hrun').
  rewrite Hsetup in Hsetup'. injection Hsetup' as <- <-.
  cbv zeta in Hrun, Hrun'.
  destruct Hrun as (_ & Hstop & Hnum & _ & Hcur & Hok & _).
  destruct Hrun' as (_ & Hstop' & _ & _ & Hcur' & _).
  replace (S i) with (i + 1)%nat in Hstop', Hcur' by lia.
  rewrite while_loop_add in Hstop', Hcur'.
  set (st := loop i subsection w limit (initial_loop_state c0)) in *.
  rewrite while_loop_running in Hstop', Hcur' by exact Hstop.
  simpl in Hstop', Hcur'.
  destruct (api_call_cases subsection w limit st) as [_ Hc].
  rewrite Hnum, Hcur in Hc. cbv zeta in Hc.
  destruct Hc as [(Hbad & _) | (_ & _ & Hc)]; [congruence |].
  destruct Hc as [(Hsf & _) | (content & t & Hpost & Hc)]; [congruence |].
  destruct Hc as (_ & _ & Hc).
  destruct Hc as [(_ & _ & Hsf & _) | [(_ & _ & Hsf & _) | (_ & _ & Hnext & _)]];
    try congruence.
  eexists content, t, _. split; [exact Hpost |].
  rewrite <- Hcur'. exact Hnext.
Qed.

(** C1 (as amended): the cursors a harvest posts never increase, and there
    are at most [max_api_calls] of them.  From one request to the next the
    cursor moves to the hint of the page when that hint is present and
    strictly below it, and then it strictly decreases; when neither the
    hint nor the batch minimum makes strict progress the harvest does not
    end for that reason: the next request, if any, is posted with the same
    cursor. *)
Theorem C1_cursor_never_increases :
  ∀ (subsection : string) (target_date_str : option string) (limit : Z)
    (initial_xsrf_token : option string),
    let h := run subsection target_date_str limit initial_xsrf_token in
    (length (before_values h) ≤ max_api_calls)%nat
    ∧ ∀ (i : nat) (a b : Z),
        consecutive (before_values h) i a b →
        b <= a
        ∧ ∃ content t,
            session_post subsection (S i) a = JsonObject content t
            ∧ (hint_progress a t → int_of_timestamp t = Some b ∧ b < a)
            ∧ ∀ w c0,
                initial_setup now_utc_timestamp target_date_str
                = SetupDone w c0 →
                ¬ hint_progress a t →
                ¬ minimum_progress a
                    (batch_minimum date_parser_parse current_year w
                       (default [] content)) →
                b = a.
Proof.
  intros subsection target_date_str limit tok h.
  split; [apply run_length |].
  intros i a b Hcons.
  destruct (run_consecutive _ _ _ _ _ _ _ Hcons)
    as (content & t & m & Hpost & ->).
  split; [apply next_before_timestamp_le |].
  exists content, t. split; [exact Hpost |]. split.
  - apply next_before_timestamp_hint.
  - intros w c0 _ Hno _. by apply next_before_timestamp_stays.
Qed.

(** *** The safety limit *)

Lemma process_candidate_length (w : window) (c : candidate) (b : batch_state) :
  (length (batch_items (process_candidate w c b))
   ≤ S (length (batch_items b)))%nat
  ∧ batch_ids b ⊆ batch_ids (process_candidate w c b)
  ∧ (passes_date_filter w (current_item_ts_utc c) = true →
     news_id c ∈ batch_ids (process_candidate w c b)).
Proof.
  destruct (process_candidate_cases w c b)
    as [(Hold & _ & Hi & Hs) | [(_ & Hnew & Hpass & _ & Hi & Hs) | (_ & Hrej & _ & Hi & Hs)]];
    rewrite Hi, Hs.
  - apply older_fails_date_filter in Hold.
    split; [lia |]. split; [reflexivity | congruence].
  - rewrite length_app. simpl. split; [lia |].
    split; [apply union_subseteq_r |].
    intros _. apply elem_of_union_l. by apply elem_of_singleton.
  - split; [lia |]. split; [reflexivity |].
    intros Hp. destruct Hrej; [done | congruence].
Qed.

Lemma process_stories_growth (w : window) (stories : list story_div)
    (b : batch_state) :
  (length (batch_items (stories_pass w stories b))
   ≤ length (batch_items b) + length stories)%nat
  ∧ batch_ids b ⊆ batch_ids (stories_pass w stories b).
Proof.
  revert b. induction stories as [| s rest IH]; intros b; simpl.
  - split; [lia | reflexivity].
  - destruct (extract s) as [c |].
    + destruct (process_candidate_length w c b) as (Hl & Hsub & _).
      destruct (broke (process_candidate w c b)).
      * split; [lia | exact Hsub].
      * destruct (IH (process_candidate w c b)) as [Hl' Hsub'].
        split; [lia | by etrans].
    + destruct (IH b) as [Hl' Hsub']. split; [lia | exact Hsub'].
Qed.

(** Without a candidate older than the target day the [for] loop does not
    break, and then every candidate that passes the date filter has its id
    among the seen ids when the page is done. *)
Lemma process_stories_no_break (w : window) (stories : list story_div)
    (b : batch_state) :
  broke b = false →
  (∀ story_div c,
     story_div ∈ stories → extract story_div = Some c →
     older_than_target w (current_item_ts_utc c) = false) →
  broke (stories_pass w stories b) = false
  ∧ ∀ story_div c,
      story_div ∈ stories → extract story_div = Some c →
      passes_date_filter w (current_item_ts_utc c) = true →
      news_id c ∈ batch_ids (stories_pass w stories b).
Proof.
  revert b. induction stories as [| s rest IH]; intros b Hb Hyoung; simpl.
  - split; [exact Hb |]. intros story c Hin. by apply elem_of_nil in Hin.
  - assert (Hrest : ∀ story_div c,
              story_div ∈ rest → extract story_div = Some c →
              older_than_target w (current_item_ts_utc c) = false).
    { intros story c Hin. apply Hyoung. by apply list_elem_of_further. }
    destruct (extract s) as [c0 |] eqn:Hs.
    + assert (Hy : older_than_target w (current_item_ts_utc c0) = false).
      { apply (Hyoung s); [apply list_elem_of_here | exact Hs]. }
      assert (Hnb : broke (process_candidate w c0 b) = false).
      { destruct (process_candidate_cases w c0 b)
          as [(Hold & _) | [(_ & _ & _ & Hbr & _) | (_ & _ & Hbr & _)]];
          [congruence | exact Hbr | exact Hbr]. }
      rewrite Hnb.
      destruct (IH (process_candidate w c0 b) Hnb Hrest) as [Hbr Hall].
      split; [exact Hbr |].
      intros story c Hin Hc Hp. apply elem_of_cons in Hin as [-> | Hin].
      * rewrite Hs in Hc. injection Hc as <-.
        destruct (process_candidate_length w c0 b) as (_ & _ & Hid).
        destruct (process_stories_growth w rest (process_candidate w c0 b))
          as [_ Hsub].
        apply Hsub. by apply Hid.
      * by apply (Hall story).
    + destruct (IH b Hb Hrest) as [Hbr Hall].
      split; [exact Hbr |].
      intros story c Hin Hc Hp. apply elem_of_cons in Hin as [-> | Hin].
      * congruence.
      * by apply (Hall story).
Qed.

Lemma while_loop_ids_grow (n : nat) (subsection : string) (w : window)
    (limit : Z) (st : loop_state) :
  processed_news_ids st
  ⊆ processed_news_ids (loop n subsection w limit st).
Proof.
  apply (while_loop_ind
           (fun st' => processed_news_ids st ⊆ processed_news_ids st'));
    [| reflexivity].
  intros st' _ Hsub. etrans; [exact Hsub |].
  destruct (api_call_cases subsection w limit st') as [_ Hc].
  destruct Hc as [(_ & _ & _ & _ & _ & Hs) | (_ & _ & Hc)].
  { by rewrite Hs. }
  destruct Hc as [(_ & _ & _ & _ & Hs) | (content & t & _ & Hb)].
  { by rewrite Hs. }
  cbv zeta in Hb. destruct Hb as (_ & Hs & _). rewrite Hs.
  apply (process_stories_growth w (default [] content) (initial_batch_state st')).
Qed.

Lemma next_before_timestamp_ok (before : Z) (t : json_timestamp)
    (m : option Z) :
  fromtimestamp_utc_ok before = true →
  (∀ z, int_of_timestamp t = Some z → fromtimestamp_utc_ok z = true) →
  fromtimestamp_utc_ok (next_before_timestamp before t m) = true.
Proof.
  intros Hb Ht. unfold next_before_timestamp.
  destruct (truthy_timestamp t); [| exact Hb].
  destruct (int_of_timestamp t) as [n |]; [| exact Hb].
  destruct (n <? before); [by apply Ht | exact Hb].
Qed.

(** A pass over a page of a feed that never ends. *)
Lemma never_ending_pass (subsection : string) (w : window) (limit : Z)
    (st : loop_state) :
  feed_never_ends date_parser_parse current_year session_post subsection w →
  fromtimestamp_utc_ok (current_before_timestamp st) = true →
  ∃ content t,
    session_post subsection (S (api_call_num st))
      (current_before_timestamp st) = JsonObject content t
    ∧ let b := stories_pass w (default [] content) (initial_batch_state st) in
      all_news_items (pass subsection w limit st) = batch_items b
      ∧ processed_news_ids (pass subsection w limit st) = batch_ids b
      ∧ broke b = false
      ∧ fromtimestamp_utc_ok
          (current_before_timestamp (pass subsection w limit st)) = true
      ∧ stop_fetching (pass subsection w limit st)
        = if bool_decide (w = None)
             && (limit <=? Z.of_nat (length (batch_items b)))
          then Some LimitReached else None.
Proof.
  intros Hfeed Hok.
  destruct (Hfeed (S (api_call_num st)) (current_before_timestamp st) Hok)
    as (content & t & Hpost & Hsome & Hyoung & Hhint).
  exists content, t. split; [exact Hpost |]. cbv zeta.
  destruct (process_stories_no_break w (default [] content)
              (initial_batch_state st) eq_refl Hyoung) as [Hnb _].
  destruct (api_call_cases subsection w limit st) as [_ Hc].
  cbv zeta in Hc.
  destruct Hc as [(Hbad & _) | (_ & _ & Hc)]; [congruence |].
  destruct Hc as [(_ & Hno & _) | (content' & t' & Hpost' & Hc)].
  { exfalso. eapply Hno. exact Hpost. }
  rewrite Hpost in Hpost'. injection Hpost' as <- <-.
  destruct Hc as (Hi & Hs & Hc).
  destruct Hc as [(Hnone & Hf & _) | [(_ & Hbr & _) | (_ & _ & Hnext & Hsf)]].
  - exfalso. destruct Hsome as [[x Hx] | Ht]; congruence.
  - congruence.
  - rewrite Hnext. repeat split; try assumption.
    by apply next_before_timestamp_ok.
Qed.

(** Against a feed that never ends, and with the count limit out of reach,
    the loop is still running after every pass. *)
Lemma while_loop_never_ends (subsection : string) (w : window) (limit c0 : Z)
    (p : nat) :
  fromtimestamp_utc_ok c0 = true →
  feed_never_ends date_parser_parse current_year session_post subsection w →
  (w = None →
   page_size_at_most session_post subsection p
   ∧ Z.of_nat (max_api_calls * p) < limit) →
  ∀ k, (k ≤ max_api_calls)%nat →
    let st := loop k subsection w limit (initial_loop_state c0) in
    stop_fetching st = None
    ∧ fromtimestamp_utc_ok (current_before_timestamp st) = true
    ∧ (w = None → (length (all_news_items st) ≤ k * p)%nat).
Proof.
  intros Hc0 Hfeed Hlim k. cbv zeta.
  induction k as [| k IH]; intros Hk.
  - simpl. split; [reflexivity |]. split; [exact Hc0 |]. intros _. lia.
  - destruct IH as (Hstop & Hok & Hlen); [lia |].
    replace (S k) with (k + 1)%nat by lia. rewrite while_loop_add.
    set (st := loop k subsection w limit (initial_loop_state c0)) in *.
    rewrite while_loop_running by exact Hstop. simpl.
    destruct (never_ending_pass subsection w limit st Hfeed Hok)
      as (content & t & Hpost & Hb).
    cbv zeta in Hb. destruct Hb as (Hi & Hs & Hnb & Hok' & Hsf).
    destruct (process_stories_growth w (default [] content)
                (initial_batch_state st)) as [Hgrow _].
    simpl in Hgrow.
    assert (Hlen' : w = None →
              (length (all_news_items (pass subsection w limit st))
               ≤ (k + 1) * p)%nat).
    { intros Hw. rewrite Hi. destruct (Hlim Hw) as [Hsize _].
      specialize (Hsize _ _ _ _ Hpost). specialize (Hlen Hw). lia. }
    split; [| split; [exact Hok' | exact Hlen']].
    rewrite Hsf. destruct (decide (w = None)) as [Hw | Hw].
    + rewrite bool_decide_eq_true_2 by exact Hw. simpl.
      destruct (Hlim Hw) as [_ Hmax]. specialize (Hlen' Hw).
      rewrite Hi in Hlen'.
      destruct (limit <=? _) eqn:E; [| reflexivity].
      apply Z.leb_le in E. nia.
    + by rewrite bool_decide_eq_false_2 by exact Hw.
Qed.

(** C8: a harvest posts at most [max_api_calls] requests (the model of the
    function is total, so it ends); against a feed that never signals
    exhaustion, and with the count limit out of reach, it posts exactly
    [max_api_calls] requests, ends with SafetyLimitReached, and returns a
    list that holds the id of every candidate of every fetched page that
    passes the date filter. *)
Theorem C8_safety_limit :
  (∀ (subsection : string) (target_date_str : option string) (limit : Z)
     (initial_xsrf_token : option string),
     (length
        (before_values
           (run subsection target_date_str limit initial_xsrf_token))
      ≤ max_api_calls)%nat)
  ∧ (∀ (subsection : string) (target_date_str : option string) (limit : Z)
       (initial_xsrf_token : option string) (w : window) (c0 : Z) (p : nat)
       (token : string),
       let h := run subsection target_date_str limit initial_xsrf_token in
       initial_setup now_utc_timestamp target_date_str = SetupDone w c0 →
       fromtimestamp_utc_ok c0 = true →
       obtain_xsrf_token get_initial_cookies_and_xsrf subsection
         initial_xsrf_token = Some token →
       Py.truthy_str token = true →
       feed_never_ends date_parser_parse current_year session_post
         subsection w →
       (w = None →
        page_size_at_most session_post subsection p
        ∧ Z.of_nat (max_api_calls * p) < limit) →
       length (before_values h) = max_api_calls
       ∧ reason h = SafetyLimitReached
       ∧ ∃ l, news h = Returned l
              ∧ ∀ (i : nat) (a : Z) content t story_div c,
                  before_values h !! i = Some a →
                  session_post subsection (S i) a = JsonObject content t →
                  story_div ∈ default [] content →
                  extract story_div = Some c →
                  passes_date_filter w (current_item_ts_utc c) = true →
                  news_id c ∈ ids_of l).
Proof.
  split; [apply run_length |].
  intros subsection target_date_str limit tok w c0 p token h
    Hsetup Hc0 Htok Htruthy Hfeed Hlim.
  pose proof (while_loop_never_ends subsection w limit c0 p Hc0 Hfeed Hlim)
    as Hrunning. cbv zeta in Hrunning.
  set (final := loop max_api_calls subsection w limit (initial_loop_state c0)).
  assert (Hh : h = mk_harvest (Returned (all_news_items final))
                     (posted final) SafetyLimitReached).
  { unfold h, fetch_barchart_news_run. rewrite Hsetup. unfold harvest_from.
    rewrite Htok, Htruthy. fold final.
    destruct (Hrunning max_api_calls (le_n _)) as (Hstop & _). fold final in Hstop.
    rewrite Hstop. f_equal. f_equal.
    apply (final_filter_collected w _ (processed_news_ids final)).
    apply (while_loop_ok max_api_calls subsection w limit c0). }
  rewrite Hh. simpl.
  pose proof (while_loop_counts max_api_calls subsection w limit c0) as Hcount.
  cbv zeta in Hcount. fold final in Hcount.
  destruct (Hrunning max_api_calls (le_n _)) as (Hstop & _). fold final in Hstop.
  destruct Hcount as (_ & _ & Hcount). destruct (Hcount Hstop) as [_ Hlen].
  split; [exact Hlen |]. split; [reflexivity |].
  exists (all_news_items final). split; [reflexivity |].
  intros i a content t story c Hlook Hpost Hin Hextract Hpass.
  pose proof (posted_lookup _ _ _ _ _ _ _ Hlook) as Hp. cbv zeta in Hp.
  destruct Hp as (Hi & Hrun & Hnum & _ & Hcur & Hok & _ & Hfinal).
  set (st := loop i subsection w limit (initial_loop_state c0)) in *.
  destruct (never_ending_pass subsection w limit st Hfeed)
    as (content' & t' & Hpost' & Hb).
  { by rewrite Hcur. }
  rewrite Hnum, Hcur, Hpost in Hpost'. injection Hpost' as <- <-.
  cbv zeta in Hb. destruct Hb as (_ & Hs & _).
  destruct (Hfeed (S i) a Hok) as (content' & t' & Hpost' & _ & Hyoung & _).
  rewrite Hpost in Hpost'. injection Hpost' as <- <-.
  destruct (process_stories_no_break w (default [] content)
              (initial_batch_state st) eq_refl Hyoung) as [_ Hall].
  pose proof (Hall story c Hin Hextract Hpass) as Hid.
  rewrite <- Hs in Hid.
  pose proof (while_loop_ids_grow (max_api_calls - S i) subsection w limit
                (pass subsection w limit st)) as Hsub.
  fold final in Hfinal. rewrite <- Hfinal in Hsub.
  pose proof (while_loop_ok max_api_calls subsection w limit c0) as Hok'.
  cbv zeta in Hok'. fold final in Hok'. destruct Hok' as [Hids _ _].
  rewrite <- Hids. by apply Hsub.
Qed.

End HarvestProperties.


(** * Properties of the window calculator *)

Section WindowCalculator.

Import PyDatetime PyFloat.

(** *** The calendar *)

(** The twelve months. *)
Lemma month_cases (m : Z) :
  1 <= m <= 12 →
  m = 1 ∨ m = 2 ∨ m = 3 ∨ m = 4 ∨ m = 5 ∨ m = 6 ∨ m = 7
  ∨ m = 8 ∨ m = 9 ∨ m = 10 ∨ m = 11 ∨ m = 12.
Proof. lia. Qed.


Lemma year_decomposition (y : Z) :
  1 <= y →
  ∃ a b c e,
    y = 400 * a + 100 * b + 4 * c + e + 1
    ∧ 0 <= a ∧ 0 <= b <= 3 ∧ 0 <= c <= 24 ∧ 0 <= e <= 3
    ∧ _days_before_year y = 146097 * a + 36524 * b + 1461 * c + 365 * e
    ∧ _is_leap y = (e =? 3) && (negb (c =? 24) || (b =? 3)).
Proof.
  intros Hy.
  exists ((y - 1) / 400), ((y - 1) mod 400 / 100), ((y - 1) mod 100 / 4),
    ((y - 1) mod 4).
  unfold _days_before_year, _is_leap. cbv zeta.
  repeat split; try (Z.div_mod_to_equations; lia).
Qed.

Lemma month_day_correct (leapyear : bool) (m d : Z) :
  1 <= m <= 12 →
  1 <= d <= _DAYS_IN_MONTH m + (if (m =? 2) && leapyear then 1 else 0) →
  month_day leapyear
    (_DAYS_BEFORE_MONTH m + (if (2 <? m) && leapyear then 1 else 0) + d - 1)
  = (m, d).
Proof.
  intros Hm Hd.
  pose proof (month_cases m ltac:(lia)) as Hcases.
  unfold month_day. cbv zeta. rewrite Z.shiftr_div_pow2 by lia.
  change (2 ^ 5) with 32.
  destruct leapyear;
    repeat (destruct Hcases as [-> | Hcases]); try subst m; simpl in Hd |- *.
  all: match goal with
       | |- context [?x / 32] =>
           let q := fresh "q" in
           let Hq := fresh "Hq" in
           remember (x / 32) as q eqn:Hq;
           assert (Hq' : 32 * q <= x < 32 * q + 32)
             by (subst q; Z.div_mod_to_equations; lia);
           clear Hq
       end.
  all: match goal with
       | H : 32 * ?q <= ?x < _ |- _ =>
           assert (Hq2 : q = 1 ∨ q = 2 ∨ q = 3 ∨ q = 4 ∨ q = 5 ∨ q = 6 ∨ q = 7
                          ∨ q = 8 ∨ q = 9 ∨ q = 10 ∨ q = 11 ∨ q = 12 ∨ q = 13)
             by lia
       end.
  all: repeat (destruct Hq2 as [-> | Hq2]); try subst q; simpl;
       try lia;
       repeat match goal with
              | |- context [?a <? ?b] => destruct (Z.ltb_spec a b); try lia
              end;
       try (f_equal; lia).
Qed.

Lemma ord2ymd_month_day (ordinal : Z) :
  _ord2ymd ordinal
  = let n := ordinal - 1 in
    let n400 := n / 146097 in
    let n := n mod 146097 in
    let n100 := n / 36524 in
    let n := n mod 36524 in
    let n4 := n / 1461 in
    let n := n mod 1461 in
    let n1 := n / 365 in
    let n := n mod 365 in
    let year := n400 * 400 + 1 + n100 * 100 + n4 * 4 + n1 in
    if (n1 =? 4) || (n100 =? 4) then (year - 1, 12, 31)
    else
      let '(m, d) :=
        month_day ((n1 =? 3) && (negb (n4 =? 24) || (n100 =? 3))) n in
      (year, m, d).
Proof.
  unfold _ord2ymd, month_day, _DI400Y, _DI100Y, _DI4Y. cbv zeta.
  destruct (_ || _); [reflexivity |].
  destruct (_ <? _); reflexivity.
Qed.

Lemma offset_in_year_bounds (leapyear : bool) (m d : Z) :
  1 <= m <= 12 →
  1 <= d <= _DAYS_IN_MONTH m + (if (m =? 2) && leapyear then 1 else 0) →
  let k :=
    _DAYS_BEFORE_MONTH m + (if (2 <? m) && leapyear then 1 else 0) + d - 1 in
  0 <= k <= 364 + (if leapyear then 1 else 0)
  ∧ (k = 365 → m = 12 ∧ d = 31).
Proof.
  intros Hm Hd.
  pose proof (month_cases m ltac:(lia)) as Hcases.
  destruct leapyear;
    repeat (destruct Hcases as [-> | Hcases]); try subst m;
    simpl in Hd |- *; lia.
Qed.

Lemma check_date_fields_spec (y m d : Z) :
  _check_date_fields y m d = true →
  1 <= y <= 9999 ∧ 1 <= m <= 12
  ∧ 1 <= d <= _DAYS_IN_MONTH m + (if (m =? 2) && _is_leap y then 1 else 0).
Proof.
  unfold _check_date_fields, _days_in_month, MINYEAR, MAXYEAR. intros H.
  repeat (apply andb_true_iff in H as [H ?]).
  assert (Hm : 1 <= m <= 12) by lia.
  split; [lia |]. split; [lia |].
  pose proof (month_cases m ltac:(lia)) as Hcases.
  destruct (_is_leap y);
    repeat (destruct Hcases as [-> | Hcases]); try subst m; simpl in *; lia.
Qed.

Lemma div_mod_eq (x b q r : Z) :
  x = b * q + r → 0 <= r < b → x / b = q ∧ x mod b = r.
Proof.
  intros Hx Hr. split; symmetry.
  - apply (Z.div_unique x b q r); [left; exact Hr | exact Hx].
  - apply (Z.mod_unique x b q r); [left; exact Hr | exact Hx].
Qed.

(** The cycles of [_ord2ymd] on a day given by its year, split in 400-,
    100-, 4- and 1-year cycles, and its offset in the year. *)
Lemma ord2ymd_cycles (a b c e k : Z) :
  0 <= b <= 3 → 0 <= c <= 24 → 0 <= e <= 3 → 0 <= k <= 364 →
  let n0 := 146097 * a + 36524 * b + 1461 * c + 365 * e + k in
  n0 / 146097 = a
  ∧ n0 mod 146097 / 36524 = b
  ∧ n0 mod 146097 mod 36524 / 1461 = c
  ∧ n0 mod 146097 mod 36524 mod 1461 / 365 = e
  ∧ n0 mod 146097 mod 36524 mod 1461 mod 365 = k.
Proof.
  intros Hb Hc He Hk n0.
  destruct (div_mod_eq n0 146097 a (36524 * b + 1461 * c + 365 * e + k))
    as [E1 E2]; [unfold n0; lia | lia |].
  rewrite E1, E2.
  destruct (div_mod_eq (36524 * b + 1461 * c + 365 * e + k) 36524 b
              (1461 * c + 365 * e + k)) as [E3 E4]; [lia | lia |].
  rewrite E3, E4.
  destruct (div_mod_eq (1461 * c + 365 * e + k) 1461 c (365 * e + k))
    as [E5 E6]; [lia | lia |].
  rewrite E5, E6.
  destruct (div_mod_eq (365 * e + k) 365 e k) as [E7 E8]; [lia | lia |].
  rewrite E7, E8. auto.
Qed.

(** The last day of a leap year, where the cycles overflow. *)
Lemma ord2ymd_cycles_last (a b c : Z) :
  0 <= b <= 3 → 0 <= c <= 24 → c ≠ 24 ∨ b = 3 →
  let n0 := 146097 * a + 36524 * b + 1461 * c + 365 * 3 + 365 in
  let n100 := n0 mod 146097 / 36524 in
  let n4 := n0 mod 146097 mod 36524 / 1461 in
  let n1 := n0 mod 146097 mod 36524 mod 1461 / 365 in
  n0 / 146097 = a
  ∧ (n1 = 4 ∨ n100 = 4)
  ∧ 100 * n100 + 4 * n4 + n1 = 100 * b + 4 * c + 4.
Proof.
  intros Hb Hc Hcb n0 n100 n4 n1. subst n100 n4 n1.
  destruct (div_mod_eq n0 146097 a (36524 * b + 1461 * c + 1460))
    as [E1 E2]; [unfold n0; lia | lia |].
  rewrite E1, E2. split; [reflexivity |].
  destruct (Z.eq_dec c 24) as [-> | Hc24].
  - assert (b = 3) as -> by lia. simpl. vm_compute. auto.
  - destruct (div_mod_eq (36524 * b + 1461 * c + 1460) 36524 b
                (1461 * c + 1460)) as [E3 E4]; [lia | lia |].
    rewrite E3, E4.
    destruct (div_mod_eq (1461 * c + 1460) 1461 c 1460)
      as [E5 E6]; [lia | lia |].
    rewrite E5, E6. change (1460 / 365) with 4. split; [by left | lia].
Qed.

Lemma ord2ymd_ymd2ord (y m d : Z) :
  _check_date_fields y m d = true →
  _ord2ymd (_ymd2ord y m d) = (y, m, d).
Proof.
  intros Hvalid.
  destruct (check_date_fields_spec y m d Hvalid) as (Hy & Hm & Hd).
  destruct (year_decomposition y)
    as (a & b & c & e & Hye & Ha & Hb & Hc & He & Hdby & Hleap); [lia |].
  pose proof (offset_in_year_bounds (_is_leap y) m d Hm Hd) as Hk.
  pose proof (month_day_correct (_is_leap y) m d Hm Hd) as Hmd.
  cbv zeta in Hk.
  rewrite ord2ymd_month_day. unfold _ymd2ord, _days_before_month.
  rewrite Hdby.
  set (k := _DAYS_BEFORE_MONTH m + (if (2 <? m) && _is_leap y then 1 else 0)
            + d - 1) in *.
  replace (146097 * a + 36524 * b + 1461 * c + 365 * e
           + (_DAYS_BEFORE_MONTH m + (if (2 <? m) && _is_leap y then 1 else 0))
           + d - 1)
    with (146097 * a + 36524 * b + 1461 * c + 365 * e + k) by (unfold k; lia).
  destruct Hk as [Hk Hlast]. cbv zeta.
  destruct (Z.eq_dec k 365) as [Hk365 | Hk365].
  - destruct (Hlast Hk365) as [-> ->].
    destruct (_is_leap y) eqn:Hl; [| simpl in Hk; lia].
    assert (e = 3 ∧ (c ≠ 24 ∨ b = 3)) as [-> Hcb] by lia.
    rewrite Hk365.
    destruct (ord2ymd_cycles_last a b c Hb Hc Hcb) as (E1 & Hflag & Hyear).
    cbv zeta in E1, Hflag, Hyear.
    replace (146097 * a + 36524 * b + 1461 * c + 365 * 3 + 365 - 1 + 1)
      with (146097 * a + 36524 * b + 1461 * c + 365 * 3 + 365) by lia.
    rewrite E1.
    match goal with
    | |- (if ?cond then _ else _) = _ =>
        replace cond with true by (symmetry; lia)
    end.
    f_equal. f_equal. lia.
  - assert (Hklt : 0 <= k <= 364) by (destruct (_is_leap y); simpl in Hk; lia).
    destruct (ord2ymd_cycles a b c e k Hb Hc He Hklt)
      as (E1 & E2 & E3 & E4 & E5).
    cbv zeta in E1, E2, E3, E4, E5.
    replace (146097 * a + 36524 * b + 1461 * c + 365 * e + k + 1 - 1)
      with (146097 * a + 36524 * b + 1461 * c + 365 * e + k) by lia.
    rewrite E1, E2, E3, E4, E5.
    replace ((e =? 4) || (b =? 4)) with false by lia.
    rewrite <- Hleap, Hmd. f_equal. f_equal. lia.
Qed.

(** *** Floats *)

Lemma floor_log2_ratio_lt (a d j : Z) :
  0 < a → 0 < d → 0 <= j → a < d * 2 ^ j → floor_log2_ratio a d < j.
Proof.
  intros Ha Hd Hj Hlt. unfold floor_log2_ratio. cbv zeta.
  pose proof (Z.log2_spec a Ha) as [Hla1 Hla2].
  pose proof (Z.log2_spec d Hd) as [Hld1 Hld2].
  pose proof (Z.log2_nonneg a) as Hla0.
  pose proof (Z.log2_nonneg d) as Hld0.
  set (la := Z.log2 a) in *. set (ld := Z.log2 d) in *.
  assert (Hk : la - ld - 1 < j).
  { (* 2^la <= a < d * 2^j < 2^(ld + 1 + j) *)
    assert (H : 2 ^ la < 2 ^ (ld + 1 + j)).
    { rewrite Z.pow_add_r by lia.
      replace (Z.succ ld) with (ld + 1) in Hld2 by lia.
      assert (0 < 2 ^ j) by (apply Z.pow_pos_nonneg; lia). nia. }
    apply Z.pow_lt_mono_r_iff in H; lia. }
  destruct (0 <=? la - ld) eqn:Hsign.
  - destruct (d * 2 ^ (la - ld) <=? a) eqn:Htest; [| lia].
    apply Z.leb_le in Htest.
    assert (H : 2 ^ (la - ld) < 2 ^ j).
    { assert (0 < 2 ^ (la - ld)) by (apply Z.pow_pos_nonneg; lia). nia. }
    apply Z.pow_lt_mono_r_iff in H; lia.
  - destruct (d <=? a * 2 ^ (- (la - ld))); lia.
Qed.

Lemma round_half_even_near (a d : Z) :
  0 <= a → 0 < d → Z.abs (2 * (round_half_even a d * d - a)) <= d
  ∧ 0 <= round_half_even a d.
Proof.
  intros Ha Hd. unfold round_half_even. cbv zeta.
  pose proof (Z.div_mod a d ltac:(lia)) as Hdm.
  pose proof (Z.mod_pos_bound a d Hd) as Hr.
  pose proof (Z.div_pos a d Ha Hd) as Hq.
  destruct (_ || _) eqn:Hup.
  - assert (d <= 2 * (a mod d)) by lia. split; [nia | lia].
  - assert (2 * (a mod d) <= d) by lia. split; [nia | lia].
Qed.

(** [int(n / 10**6)] is the whole number of seconds for instants from the
    epoch to [2^34] seconds after it. *)
Lemma int_of_truediv_seconds (x r : Z) :
  0 <= x < 2 ^ 34 → 0 <= r <= 999999 →
  int_of_float (truediv (x * 1000000 + r) 1000000) = x.
Proof.
  intros Hx Hr. unfold truediv.
  destruct (x * 1000000 + r =? 0) eqn:Hzero.
  { unfold int_of_float. simpl. lia. }
  set (n := x * 1000000 + r) in *.
  assert (Hn : 0 < n) by lia.
  cbv zeta. rewrite Z.abs_eq by lia. rewrite (Z.sgn_pos n Hn).
  pose proof (floor_log2_ratio_lt n 1000000 34 Hn ltac:(lia) ltac:(lia)) as He.
  set (fl := floor_log2_ratio n 1000000) in *.
  assert (He' : fl - 52 <= -19) by (specialize (He ltac:(unfold n; lia)); lia).
  clear He.
  destruct (0 <=? fl - 52) eqn:Hs; [lia |].
  unfold int_of_float. simpl mantissa. simpl exponent. rewrite Hs.
  set (k := - (fl - 52)) in *.
  assert (Hk : 19 <= k) by lia.
  assert (HP : 2 ^ 19 <= 2 ^ k) by (apply Z.pow_le_mono_r; lia).
  change (2 ^ 19) with 524288 in HP.
  set (P := 2 ^ k) in *.
  destruct (round_half_even_near (n * P) 1000000 ltac:(nia) ltac:(lia))
    as [Hnear Hpos].
  set (m := round_half_even (n * P) 1000000) in *.
  rewrite Z.mul_1_l.
  rewrite Z.quot_div_nonneg by lia.
  symmetry. apply (Z.div_unique m P x (m - P * x)); [| lia].
  left. unfold n in Hnear.
  assert (H1 : 0 <= r * P) by nia.
  assert (H2 : r * P <= 999999 * P) by nia.
  replace ((x * 1000000 + r) * P) with (1000000 * (x * P) + r * P) in Hnear
    by ring.
  replace (P * x) with (x * P) by ring.
  set (X := x * P) in *. set (R := r * P) in *. lia.
Qed.

(** *** Date strings *)

Lemma digit_cases (n : Z) :
  0 <= n <= 9 →
  n = 0 ∨ n = 1 ∨ n = 2 ∨ n = 3 ∨ n = 4 ∨ n = 5 ∨ n = 6 ∨ n = 7 ∨ n = 8 ∨ n = 9.
Proof. lia. Qed.

Lemma digit_char_spec (n : Z) :
  0 <= n <= 9 →
  Py.is_digit (digit_char n) = true ∧ Py.digit_value (digit_char n) = n.
Proof.
  intros Hn. destruct (digit_cases n Hn) as [-> | [-> | [-> | [-> | [-> | [-> | [-> | [-> | [-> | ->]]]]]]]]];
    split; reflexivity.
Qed.

Lemma year_group_two_digits (y : Z) (rest : string) :
  0 <= y <= 9999 →
  Strptime.year_group (two_digits (y / 100) (two_digits (y mod 100) rest))
  = Some (y, rest).
Proof.
  intros Hy. unfold two_digits, Strptime.year_group.
  destruct (digit_char_spec (y / 100 / 10)) as [Ha Va];
    [Z.div_mod_to_equations; lia |].
  destruct (digit_char_spec (y / 100 mod 10)) as [Hb Vb];
    [Z.div_mod_to_equations; lia |].
  destruct (digit_char_spec (y mod 100 / 10)) as [Hc Vc];
    [Z.div_mod_to_equations; lia |].
  destruct (digit_char_spec (y mod 100 mod 10)) as [Hd Vd];
    [Z.div_mod_to_equations; lia |].
  rewrite Ha, Hb, Hc, Hd, Va, Vb, Vc, Vd. simpl. f_equal. f_equal.
  Z.div_mod_to_equations. lia.
Qed.

Lemma month_day_two_digits (m d : Z) :
  1 <= m <= 12 → 1 <= d <= 31 →
  Strptime.month_then_day
    (Strptime.month_alternatives (two_digits m (two_digits d EmptyString)))
  = Some (m, d, EmptyString).
Proof.
  intros Hm Hd.
  pose proof (month_cases m ltac:(lia)) as Hmc.
  assert (Hdc : (1 <= d <= 9) ∨ (10 <= d <= 19) ∨ (20 <= d <= 29) ∨ d = 30 ∨ d = 31)
    by lia.
  assert (Hd1 : d / 10 = 0 ∨ d / 10 = 1 ∨ d / 10 = 2 ∨ d / 10 = 3)
    by (Z.div_mod_to_equations; lia).
  assert (Hd2 : 0 <= d mod 10 <= 9) by (Z.div_mod_to_equations; lia).
  assert (Hd3 : d = 10 * (d / 10) + d mod 10) by (Z.div_mod_to_equations; lia).
  unfold two_digits at 2.
  remember (d / 10) as d1 eqn:E1. remember (d mod 10) as d2 eqn:E2.
  clear E1 E2. subst d.
  apply digit_cases in Hd2.
  repeat (destruct Hmc as [-> | Hmc]); try subst m;
    repeat (destruct Hd1 as [-> | Hd1]); try subst d1;
    repeat (destruct Hd2 as [-> | Hd2]); try subst d2;
    try lia; reflexivity.
Qed.

Lemma strptime_yyyymmdd (y m d : Z) :
  _check_date_fields y m d = true →
  Strptime.strptime_Ymd (yyyymmdd y m d) = Some (mk_datetime y m d 0 0 0 0 None).
Proof.
  intros Hvalid. unfold Strptime.strptime_Ymd, yyyymmdd.
  assert (Hr : 1 <= y <= 9999 ∧ 1 <= m <= 12 ∧ 1 <= d <= 31).
  { unfold _check_date_fields, _days_in_month, MINYEAR, MAXYEAR in Hvalid.
    repeat (apply andb_true_iff in Hvalid as [Hvalid ?]).
    assert (Hm : 1 <= m <= 12) by lia.
    pose proof (month_cases m ltac:(lia)) as Hmc.
    split; [lia |]. split; [lia |].
    destruct (_is_leap y);
      repeat (destruct Hmc as [-> | Hmc]); try subst m; simpl in *; lia. }
  destruct Hr as (Hy & Hm & Hd).
  rewrite year_group_two_digits by lia.
  rewrite month_day_two_digits by lia.
  rewrite Hvalid. reflexivity.
Qed.

Ltac alternatives_cases H :=
  repeat match type of H with
         | _ ∈ _ ++ _ => apply elem_of_app in H as [H | H]
         | _ ∈ (if ?c then _ else _) => destruct c
         | _ ∈ [] => by apply elem_of_nil in H
         | _ ∈ [_] => apply list_elem_of_singleton in H; injection H as -> ->
         | _ ∈ match ?r with EmptyString => _ | String _ _ => _ end =>
             destruct r
         end.

Lemma month_alternatives_length (s r : string) (v : Z) :
  (v, r) ∈ Strptime.month_alternatives s →
  (String.length s = String.length r + 1
   ∨ String.length s = String.length r + 2)%nat.
Proof.
  intros H. destruct s as [| a s]; simpl in H; [by apply elem_of_nil in H |].
  alternatives_cases H; simpl; lia.
Qed.

Lemma day_alternatives_length (s r : string) (v : Z) :
  (v, r) ∈ Strptime.day_alternatives s →
  (String.length s = String.length r + 1
   ∨ String.length s = String.length r + 2)%nat.
Proof.
  intros H. destruct s as [| a s]; simpl in H; [by apply elem_of_nil in H |].
  alternatives_cases H; simpl; lia.
Qed.

Lemma month_then_day_length (ms : list (Z * string)) (m d : Z) (rest : string) :
  Strptime.month_then_day ms = Some (m, d, rest) →
  ∃ r, (m, r) ∈ ms ∧ (d, rest) ∈ Strptime.day_alternatives r.
Proof.
  induction ms as [| [m0 r0] ms IH]; simpl; [discriminate |].
  destruct (Strptime.day_alternatives r0) as [| [d0 r1] ds] eqn:Hd.
  - intros H. destruct (IH H) as (r & Hin & Hday).
    exists r. split; [by apply list_elem_of_further | exact Hday].
  - intros H. injection H as <- <- <-. exists r0.
    split; [apply list_elem_of_here |]. rewrite Hd. apply list_elem_of_here.
Qed.

Lemma year_group_length (s r : string) (y : Z) :
  Strptime.year_group s = Some (y, r) →
  (String.length s = String.length r + 4)%nat.
Proof.
  unfold Strptime.year_group.
  destruct s as [| a [| b [| c [| d s]]]]; try discriminate.
  destruct (_ && _); [| discriminate].
  intros H. injection H as _ <-. simpl. lia.
Qed.

(** What [strptime] accepts has six to eight characters. *)
Lemma strptime_Ymd_length (s : string) (dt : datetime) :
  Strptime.strptime_Ymd s = Some dt →
  (6 ≤ String.length s ≤ 8)%nat.
Proof.
  unfold Strptime.strptime_Ymd.
  destruct (Strptime.year_group s) as [[y r] |] eqn:Hy; [| discriminate].
  destruct (Strptime.month_then_day _) as [[[m d] rest] |] eqn:Hmd;
    [| discriminate].
  destruct (Py.is_empty rest) eqn:Hrest; [| discriminate].
  intros _. destruct rest; [| discriminate].
  apply year_group_length in Hy.
  apply month_then_day_length in Hmd as (r' & Hm & Hd).
  apply month_alternatives_length in Hm.
  apply day_alternatives_length in Hd. simpl in Hd. lia.
Qed.

(** *** The UTC bounds of a day *)

Lemma days_before_year_succ (y : Z) :
  1 <= y →
  _days_before_year (y + 1)
  = _days_before_year y + 365 + (if _is_leap y then 1 else 0).
Proof.
  intros Hy. unfold _days_before_year, _is_leap. cbv zeta.
  replace (y + 1 - 1) with y by lia.
  destruct (y mod 4 =? 0) eqn:E4; destruct (y mod 100 =? 0) eqn:E100;
    destruct (y mod 400 =? 0) eqn:E400; simpl;
    Z.div_mod_to_equations; lia.
Qed.

Lemma next_day_spec (y m d : Z) :
  _check_date_fields y m d = true → y < 9999 →
  let '(y2, m2, d2) := next_day y m d in
  _check_date_fields y2 m2 d2 = true
  ∧ _ymd2ord y2 m2 d2 = _ymd2ord y m d + 1.
Proof.
  intros Hvalid Hy.
  destruct (check_date_fields_spec y m d Hvalid) as (Hy' & Hm & Hd).
  pose proof (month_cases m ltac:(lia)) as Hmc.
  clear Hvalid Hm.
  pose proof (days_before_year_succ y ltac:(lia)) as Hsucc.
  unfold next_day, _check_date_fields, _ymd2ord, _days_before_month,
    _days_in_month, MINYEAR, MAXYEAR.
  destruct (_is_leap y) eqn:Hl;
    repeat (destruct Hmc as [-> | Hmc]); try subst m; simpl in Hd |- *;
    match goal with
    | |- context [d <? ?n] => destruct (Z.ltb_spec d n)
    end;
    simpl; rewrite ?Hsucc, ?Hl;
    (split; [repeat (apply andb_true_iff; split); lia |]);
    try lia;
    destruct (_is_leap (y + 1)); lia.
Qed.

Lemma ymd2ord_year_bound (y m d : Z) :
  _check_date_fields y m d = true → 365 * (y - 1) < _ymd2ord y m d.
Proof.
  intros Hvalid.
  destruct (check_date_fields_spec y m d Hvalid) as (Hy & Hm & Hd).
  pose proof (month_cases m ltac:(lia)) as Hmc.
  assert (H0 : 0 <= _days_before_month y m).
  { unfold _days_before_month.
    destruct (_is_leap y);
      repeat (destruct Hmc as [-> | Hmc]); try subst m; simpl; lia. }
  unfold _ymd2ord, _days_before_year. cbv zeta.
  assert (0 <= (y - 1) / 4 - (y - 1) / 100 + (y - 1) / 400)
    by (Z.div_mod_to_equations; lia).
  lia.
Qed.

(** [astimezone(utc)] of a local time of day on a date, when the UTC day is
    the same day. *)
Lemma shift_to_utc_same_day (y m d h mi s us off : Z) :
  _check_date_fields y m d = true →
  0 < _ymd2ord y m d <= _MAXORDINAL →
  0 <= h * 3600 + mi * 60 + s - off < 86400 →
  shift_to_utc (mk_datetime y m d h mi s us (Some off)) off
  = let rem := h * 3600 + mi * 60 + s - off in
    Some (mk_datetime y m d (rem / 3600) (rem mod 3600 / 60) (rem mod 60) us
            (Some timezone_utc)).
Proof.
  intros Hvalid Hord Hsecs. unfold shift_to_utc, toordinal. simpl.
  rewrite Z.div_small by lia. rewrite Z.mod_small by lia.
  rewrite Z.add_0_r.
  replace ((0 <? _ymd2ord y m d) && (_ymd2ord y m d <=? _MAXORDINAL))
    with true by lia.
  rewrite ord2ymd_ymd2ord by exact Hvalid. reflexivity.
Qed.

(** ... and when the UTC day is the next day. *)
Lemma shift_to_utc_next_day (y m d h mi s us off : Z) :
  _check_date_fields y m d = true → y < 9999 →
  0 < _ymd2ord y m d + 1 <= _MAXORDINAL →
  86400 <= h * 3600 + mi * 60 + s - off < 2 * 86400 →
  shift_to_utc (mk_datetime y m d h mi s us (Some off)) off
  = let rem := h * 3600 + mi * 60 + s - off - 86400 in
    let '(y2, m2, d2) := next_day y m d in
    Some (mk_datetime y2 m2 d2 (rem / 3600) (rem mod 3600 / 60) (rem mod 60) us
            (Some timezone_utc)).
Proof.
  intros Hvalid Hy Hord Hsecs. unfold shift_to_utc, toordinal. simpl.
  pose proof (next_day_spec y m d Hvalid Hy) as Hnext.
  destruct (next_day y m d) as [[y2 m2] d2]. destruct Hnext as [Hv2 Ho2].
  destruct (div_mod_eq (h * 3600 + mi * 60 + s - off) 86400 1
              (h * 3600 + mi * 60 + s - off - 86400)) as [E1 E2]; [lia | lia |].
  rewrite E1, E2.
  replace ((0 <? _ymd2ord y m d + 1) && (_ymd2ord y m d + 1 <=? _MAXORDINAL))
    with true by lia.
  rewrite <- Ho2. rewrite ord2ymd_ymd2ord by exact Hv2. reflexivity.
Qed.

Lemma astimezone_cdt (y m d h mi s us : Z) :
  astimezone_utc (mk_datetime y m d h mi s us (Some (timezone_hours (-5))))
  = shift_to_utc (mk_datetime y m d h mi s us (Some (-18000))) (-18000).
Proof. reflexivity. Qed.

Lemma timestamp_utc_seconds (y m d h mi s us : Z) :
  let x := (_ymd2ord y m d - 719163) * 86400 + h * 3600 + mi * 60 + s in
  0 <= x < 2 ^ 34 → 0 <= us <= 999999 →
  PyFloat.int_of_float
    (timestamp (mk_datetime y m d h mi s us (Some timezone_utc)))
  = x.
Proof.
  intros x Hx Hus. unfold timestamp, microseconds_since_epoch, toordinal.
  simpl. unfold _EPOCH_ORDINAL, timezone_utc.
  replace (((_ymd2ord y m d - 719163) * 86400 + h * 3600 + mi * 60 + s - 0)
           * 1000000 + us)
    with (x * 1000000 + us) by (unfold x; lia).
  by apply int_of_truediv_seconds.
Qed.

Lemma civil_time_of_day (y m d s : Z) :
  _check_date_fields y m d = true → 0 <= s < 86400 →
  civil_time (-18000) ((_ymd2ord y m d - 719163) * 86400 + 18000 + s)
  = (y, m, d, s / 3600, s mod 3600 / 60, s mod 60).
Proof.
  intros Hvalid Hs. unfold civil_time. cbv zeta.
  destruct (div_mod_eq
              ((_ymd2ord y m d - 719163) * 86400 + 18000 + s + -18000) 86400
              (_ymd2ord y m d - 719163) s) as [E1 E2]; [lia | lia |].
  rewrite E1, E2. unfold _EPOCH_ORDINAL.
  replace (_ymd2ord y m d - 719163 + 719163) with (_ymd2ord y m d) by lia.
  by rewrite ord2ymd_ymd2ord.
Qed.

Lemma window_of_a_day (y m d : Z) :
  _check_date_fields y m d = true →
  719162 <= _ymd2ord y m d <= 918002 →
  let start := (_ymd2ord y m d - 719163) * 86400 + 18000 in
  date_str_to_timestamps_for_day (yyyymmdd y m d)
  = Returned (Some start, Some (start + 86399)).
Proof.
  intros Hvalid Hord start.
  destruct (Z.eq_dec (_ymd2ord y m d) 719162) as [Hfirst | Hfirst].
  { (* 1969-12-31, the one day that starts before the epoch *)
    pose proof (ord2ymd_ymd2ord y m d Hvalid) as Hinv.
    rewrite Hfirst in Hinv. vm_compute in Hinv.
    injection Hinv as <- <- <-. vm_compute. reflexivity. }
  assert (Hy : y < 9999).
  { pose proof (ymd2ord_year_bound y m d Hvalid). lia. }
  unfold date_str_to_timestamps_for_day.
  rewrite strptime_yyyymmdd by exact Hvalid.
  unfold replace_time_tzinfo. simpl year. simpl month. simpl day.
  rewrite !astimezone_cdt.
  rewrite shift_to_utc_same_day; [| exact Hvalid | unfold _MAXORDINAL; lia | lia].
  rewrite shift_to_utc_next_day;
    [| exact Hvalid | exact Hy | unfold _MAXORDINAL; lia | lia].
  cbv zeta.
  pose proof (next_day_spec y m d Hvalid Hy) as Hnext.
  destruct (next_day y m d) as [[y2 m2] d2]. destruct Hnext as [Hv2 Ho2].
  change (0 * 3600 + 0 * 60 + 0 - -18000) with 18000.
  change (23 * 3600 + 59 * 60 + 59 - -18000 - 86400) with 17999.
  change (18000 / 3600) with 5. change (18000 mod 3600 / 60) with 0.
  change (18000 mod 60) with 0.
  change (17999 / 3600) with 4. change (17999 mod 3600 / 60) with 59.
  change (17999 mod 60) with 59.
  rewrite !timestamp_utc_seconds;
    rewrite ?Ho2; change (2 ^ 34) with 17179869184; try lia.
  unfold start. do 3 f_equal; lia.
Qed.

(** C4 (as amended): for every well-formed YYYYMMDD calendar date from
    19691231 to 25140528 the window calculator returns the whole epoch
    seconds of local midnight and of local 23:59:59 of that date at the
    fixed offset UTC-5: read back at that offset, the start is the date at
    00:00:00 and the end the same date at 23:59:59.  For 20250611 the window
    is [2025-06-11T05:00:00Z, 2025-06-12T04:59:59Z].  A string that
    [strptime] rejects for the format (in particular every string shorter
    than six or longer than eight characters) yields [(None, None)], and a
    harvest asked for such a (non-empty) date ends with InvalidDate, an
    empty list and no request. *)
Theorem C4_window_of_a_day :
  (∀ y m d : Z,
     _check_date_fields y m d = true →
     719162 <= _ymd2ord y m d <= 918002 →
     let start := (_ymd2ord y m d - 719163) * 86400 + 18000 in
     date_str_to_timestamps_for_day (yyyymmdd y m d)
     = Returned (Some start, Some (start + 86399))
     ∧ civil_time (-18000) start = (y, m, d, 0, 0, 0)
     ∧ civil_time (-18000) (start + 86399) = (y, m, d, 23, 59, 59))
  ∧ (date_str_to_timestamps_for_day "20250611"
     = Returned (Some 1749618000, Some 1749704399)
     ∧ civil_time 0 1749618000 = (2025, 6, 11, 5, 0, 0)
     ∧ civil_time 0 1749704399 = (2025, 6, 12, 4, 59, 59))
  ∧ (∀ s : string,
       Strptime.strptime_Ymd s = None →
       date_str_to_timestamps_for_day s = Returned (None, None))
  ∧ (∀ s : string,
       (String.length s < 6 ∨ 8 < String.length s)%nat →
       Strptime.strptime_Ymd s = None)
  ∧ (∀ (date_parser_parse : string → option datetime)
       (current_year now_utc_timestamp : Z)
       (get_initial_cookies_and_xsrf : string → option string)
       (session_post : string → nat → Z → response) (max_api_calls : nat)
       (subsection s : string) (limit : Z)
       (initial_xsrf_token : option string),
       Strptime.strptime_Ymd s = None → s ≠ EmptyString →
       fetch_barchart_news_run date_parser_parse current_year
         now_utc_timestamp get_initial_cookies_and_xsrf session_post
         max_api_calls subsection (Some s) limit initial_xsrf_token
       = mk_harvest (Returned []) [] InvalidDate).
Proof.
  assert (Hnone : ∀ s : string,
            Strptime.strptime_Ymd s = None →
            date_str_to_timestamps_for_day s = Returned (None, None)).
  { intros s Hs. unfold date_str_to_timestamps_for_day. by rewrite Hs. }
  split; [| split; [| split; [exact Hnone | split]]].
  - intros y m d Hvalid Hord start.
    split; [by apply window_of_a_day |].
    split.
    + replace start with ((_ymd2ord y m d - 719163) * 86400 + 18000 + 0)
        by (unfold start; lia).
      by rewrite civil_time_of_day by (auto; lia).
    + replace (start + 86399)
        with ((_ymd2ord y m d - 719163) * 86400 + 18000 + 86399)
        by (unfold start; lia).
      by rewrite civil_time_of_day by (auto; lia).
  - split; [vm_compute; reflexivity |].
    split; vm_compute; reflexivity.
  - intros s Hlen.
    destruct (Strptime.strptime_Ymd s) as [dt |] eqn:Hs; [| reflexivity].
    apply strptime_Ymd_length in Hs. lia.
  - intros parse cy now handshake post max_calls subsection s limit tok Hs Hne.
    unfold fetch_barchart_news_run, initial_setup.
    destruct s as [| c s]; [done |]. simpl Py.truthy_str. cbv iota.
    simpl default. by rewrite (Hnone _ Hs).
Qed.

End WindowCalculator.

(** * Properties of the timestamp normalizer *)

Section NormalizerProperties.

Import PyDatetime PyFloat.

Variable date_parser_parse : string -> option datetime.
Variable current_year : Z.

(** Whether the parser reads an explicit clock time in a string. *)
Variable has_clock_time : string -> bool.

(** [dateutil] reads a zone only after it has read an hour: a result with a
    zone comes from a string with an AM or PM marker or a clock time. *)
Hypothesis zone_needs_time :
  ∀ s dt,
    date_parser_parse s = Some dt →
    is_Some (tzinfo dt) →
    has_am_pm s = true ∨ has_clock_time s = true.

Local Abbreviation resolve := (resolve_datetime date_parser_parse current_year).
Local Abbreviation normalize :=
  (parse_date_string_to_timestamp date_parser_parse current_year).

Lemma replace_year_fields (dt dt' : datetime) (y : Z) :
  replace_year dt y = Some dt' →
  year dt' = y ∧ month dt' = month dt ∧ day dt' = day dt
  ∧ hour dt' = hour dt ∧ minute dt' = minute dt ∧ second dt' = second dt
  ∧ microsecond dt' = microsecond dt ∧ tzinfo dt' = tzinfo dt.
Proof.
  unfold replace_year. destruct (_check_date_fields _ _ _); [| discriminate].
  intros H. injection H as <-. simpl. auto 10.
Qed.

(** The year rule comes last and leaves the other fields alone. *)
Lemma resolve_year_rule (s : string) (parsed dt : datetime) :
  date_parser_parse s = Some parsed →
  resolve s = Some dt →
  ∃ zoned,
    (tzinfo parsed = None →
     zoned
     = if has_am_pm s
       then replace_tzinfo parsed (Some (timezone_hours (-5)))
       else replace_time
              (replace_tzinfo parsed (Some (timezone_hours (-5)))) 12 0 0 0)
    ∧ (is_Some (tzinfo parsed) → zoned = parsed)
    ∧ (year parsed = 1900 → replace_year zoned current_year = Some dt)
    ∧ (year parsed ≠ 1900 → dt = zoned).
Proof.
  intros Hparse. unfold resolve_datetime. rewrite Hparse.
  fold (has_am_pm s). unfold has_am_pm.
  destruct (tzinfo parsed) as [off |] eqn:Htz.
  - intros H. exists parsed.
    split; [discriminate |]. split; [reflexivity |].
    destruct (year parsed =? 1900) eqn:Hy.
    + split; [intros _; exact H | lia].
    + split; [lia | intros _; congruence].
  - destruct ((Py.find (Py.lower s) "am" =? -1)
              && (Py.find (Py.lower s) "pm" =? -1)) eqn:Hampm; simpl;
      intros H; eexists; (split; [intros _; reflexivity |]);
      (split; [intros [? ?]; discriminate |]);
      simpl in H; destruct (year parsed =? 1900) eqn:Hy.
    all: split; intros Hyear; try lia; try exact H; try congruence.
Qed.

(** C5: the normalizer applies its rules in the stated order.  When the
    parsed result has no zone the fixed offset UTC-5 is attached; when the
    string has no time of day the time is set to noon at that offset; when
    the parsed year is 1900 (otherwise the year is kept) the current year is
    put in its place; and the timestamp is the conversion to UTC of the
    datetime so resolved.  "Tue Jun 10, 5:00PM" read in 2025 resolves to
    2025-06-10T22:00:00Z and "Sat Jun 10, 2023" to 2023-06-10T17:00:00Z. *)
Theorem C5_resolution_rules :
  (∀ (s : string) (parsed dt : datetime),
     date_parser_parse s = Some parsed →
     resolve s = Some dt →
     (tzinfo parsed = None → tzinfo dt = Some (timezone_hours (-5)))
     ∧ (no_time_of_day has_clock_time s →
        tzinfo dt = Some (timezone_hours (-5))
        ∧ hour dt = 12 ∧ minute dt = 0 ∧ second dt = 0 ∧ microsecond dt = 0)
     ∧ (year parsed = 1900 → year dt = current_year)
     ∧ (year parsed ≠ 1900 → year dt = year parsed)
     ∧ month dt = month parsed ∧ day dt = day parsed)
  ∧ (∀ (s : string) (z : Z),
       normalize s = Some z →
       ∃ dt u,
         resolve s = Some dt
         ∧ astimezone_utc dt = Some u
         ∧ z = int_of_float (timestamp u))
  ∧ (∀ y0 : Z,
       current_year = 2025 →
       y0 = 1900 ∨ y0 = 2025 →
       date_parser_parse "Tue Jun 10, 5:00PM"
       = Some (mk_datetime y0 6 10 17 0 0 0 None) →
       normalize "Tue Jun 10, 5:00PM" = Some 1749592800)
  ∧ civil_time 0 1749592800 = (2025, 6, 10, 22, 0, 0)
  ∧ (∀ h mi sec us : Z,
       date_parser_parse "Sat Jun 10, 2023"
       = Some (mk_datetime 2023 6 10 h mi sec us None) →
       normalize "Sat Jun 10, 2023" = Some 1686416400)
  ∧ civil_time 0 1686416400 = (2023, 6, 10, 17, 0, 0).
Proof.
  split; [| split; [| split; [| split; [| split]]]].
  - intros s parsed dt Hparse Hres.
    destruct (resolve_year_rule s parsed dt Hparse Hres)
      as (zoned & Hnaive & Haware & H1900 & Hother).
    assert (Hfields :
      year dt = (if year parsed =? 1900 then current_year else year zoned)
      ∧ month dt = month zoned ∧ day dt = day zoned
      ∧ hour dt = hour zoned ∧ minute dt = minute zoned
      ∧ second dt = second zoned ∧ microsecond dt = microsecond zoned
      ∧ tzinfo dt = tzinfo zoned).
    { destruct (year parsed =? 1900) eqn:Hy.
      - apply replace_year_fields. apply H1900. lia.
      - rewrite (Hother ltac:(lia)). auto 10. }
    destruct Hfields as (Fy & Fm & Fd & Fh & Fmi & Fs & Fus & Ftz).
    assert (Hzoned_date :
      year zoned = year parsed ∧ month zoned = month parsed
      ∧ day zoned = day parsed).
    { destruct (tzinfo parsed) as [off |] eqn:Htz.
      - rewrite (Haware ltac:(eauto)). auto.
      - rewrite (Hnaive eq_refl). destruct (has_am_pm s); simpl; auto. }
    destruct Hzoned_date as (Zy & Zm & Zd).
    split; [| split; [| split; [| split; [| split]]]].
    + intros Htz. rewrite Ftz, (Hnaive Htz).
      destruct (has_am_pm s); reflexivity.
    + intros [Hampm Hclock].
      assert (Htz : tzinfo parsed = None).
      { destruct (tzinfo parsed) as [off |] eqn:Htz; [| reflexivity].
        destruct (zone_needs_time s parsed Hparse) as [H | H];
          [rewrite Htz; eauto | congruence | congruence]. }
      rewrite Ftz, Fh, Fmi, Fs, Fus, (Hnaive Htz), Hampm. simpl. auto.
    + intros Hy. rewrite Fy.
      replace (year parsed =? 1900) with true by lia. reflexivity.
    + intros Hy. rewrite Fy.
      replace (year parsed =? 1900) with false by lia. exact Zy.
    + congruence.
    + congruence.
  - intros s z. unfold parse_date_string_to_timestamp.
    destruct (Py.is_empty s); [discriminate |].
    destruct (resolve s) as [dt |]; [| discriminate].
    destruct (astimezone_utc dt) as [u |] eqn:Hu; [| discriminate].
    intros H. injection H as <-. exists dt, u. auto.
  - intros y0 Hcy Hy0 Hparse.
    unfold parse_date_string_to_timestamp, resolve_datetime.
    rewrite Hparse, Hcy. destruct Hy0 as [-> | ->]; vm_compute; reflexivity.
  - vm_compute. reflexivity.
  - intros h mi sec us Hparse.
    unfold parse_date_string_to_timestamp, resolve_datetime.
    rewrite Hparse. vm_compute. reflexivity.
  - vm_compute. reflexivity.
Qed.

End NormalizerProperties.

(** * The properties on the mocked feeds *)

Local Abbreviation mock_extract :=
  (extract_candidate (Mock.date_parser_parse 2025) 2025).

(** The target day 20250611 and the first cursor of its harvest. *)
Lemma mock_setup :
  initial_setup 1749700000 (Some "20250611")
  = SetupDone (Some (1749618000, 1749704399)) 1749704400.
Proof. vm_compute. reflexivity. Qed.

(** C1, witness: the second and third pages of the paged feed were
    requested with the hint of the page before, each strictly below the
    cursor before it; the stalled feed, whose hint and batch minimum make
    no progress, is asked again with the same cursor. *)
Lemma C1_cursor_never_increases_witness :
  (consecutive
     (before_values (Mock.run Mock.paged_feed 5%nat (Some "20250611")))
     1 1749664800 1749650400
   ∧ Mock.paged_feed "all-commodities" 2 1749664800
     = JsonObject
         (Some [Mock.story "2" "Wed Jun 11, 1:00PM CDT" "Barchart";
                Mock.story "7" "Wed Jun 11, 9:00AM CDT" "Associated Press";
                Mock.story "3" "Wed Jun 11, 9:00AM CDT" "Barchart"])
         (JsonStr "1749650400")
   ∧ hint_progress 1749664800 (JsonStr "1749650400")
   ∧ int_of_timestamp (JsonStr "1749650400") = Some 1749650400
   ∧ 1749650400 < 1749664800)
  ∧ (consecutive
       (before_values (Mock.run Mock.stalled_feed 5%nat (Some "20250611")))
       0 1749704400 1749704400
     ∧ ¬ hint_progress 1749704400 (JsonInt 1749704400)
     ∧ ¬ minimum_progress 1749704400
           (batch_minimum (Mock.date_parser_parse 2025) 2025
              (Some (1749618000, 1749704399))
              [Mock.story "101" "Thu Jun 12, 9:00AM CDT" "Barchart"])
     ∧ (length
          (before_values (Mock.run Mock.stalled_feed 5%nat (Some "20250611")))
        ≤ 5)%nat).
Proof.
  split.
  - assert (Hcons :
      consecutive
        (before_values (Mock.run Mock.paged_feed 5%nat (Some "20250611")))
        1 1749664800 1749650400).
    { split; vm_compute; reflexivity. }
    assert (Hhint : hint_progress 1749664800 (JsonStr "1749650400")).
    { split; [reflexivity |]. exists 1749650400.
      split; [vm_compute; reflexivity | lia]. }
    pose proof (C1_cursor_never_increases (Mock.date_parser_parse 2025) 2025
                  1749700000 Mock.handshake Mock.paged_feed 5%nat
                  "all-commodities" (Some "20250611") 30 None) as Hall.
    cbv zeta in Hall. destruct Hall as [_ Hstep].
    destruct (Hstep 1%nat 1749664800 1749650400 Hcons)
      as (_ & content & t & Hpost & Hprogress & _).
    injection Hpost as <- <-.
    destruct (Hprogress Hhint) as [Hint Hlt].
    split; [exact Hcons |]. split; [reflexivity |]. split; [exact Hhint |].
    split; [exact Hint | exact Hlt].
  - assert (Hcons :
      consecutive
        (before_values (Mock.run Mock.stalled_feed 5%nat (Some "20250611")))
        0 1749704400 1749704400).
    { split; vm_compute; reflexivity. }
    assert (Hhint : ¬ hint_progress 1749704400 (JsonInt 1749704400)).
    { intros (_ & n & Hn & Hlt). simpl in Hn. injection Hn as <-. lia. }
    assert (Hmin :
      ¬ minimum_progress 1749704400
          (batch_minimum (Mock.date_parser_parse 2025) 2025
             (Some (1749618000, 1749704399))
             [Mock.story "101" "Thu Jun 12, 9:00AM CDT" "Barchart"])).
    { assert (E :
        batch_minimum (Mock.date_parser_parse 2025) 2025
          (Some (1749618000, 1749704399))
          [Mock.story "101" "Thu Jun 12, 9:00AM CDT" "Barchart"]
        = Some 1749736800) by (vm_compute; reflexivity).
      rewrite E. intros (n & Hn & Hlt). injection Hn as <-. lia. }
    pose proof (C1_cursor_never_increases (Mock.date_parser_parse 2025) 2025
                  1749700000 Mock.handshake Mock.stalled_feed 5%nat
                  "all-commodities" (Some "20250611") 30 None) as Hall.
    cbv zeta in Hall. destruct Hall as [Hlen Hstep].
    destruct (Hstep 0%nat 1749704400 1749704400 Hcons)
      as (_ & content & t & Hpost & _ & Hstay).
    injection Hpost as <- <-.
    pose proof (Hstay _ _ mock_setup Hhint Hmin) as Hsame.
    split; [exact Hcons |]. split; [exact Hhint |].
    split; [exact Hmin | exact Hlen].
Defined.

(** C1, counterexample: every page of the stalled feed repeats the cursor as
    its hint and holds one item newer than the cursor, so neither makes
    strict progress; with five calls allowed the harvest posts the same
    cursor five times and ends at the safety limit. *)
Lemma C1_stalled_cursor_is_posted_again :
  Mock.stalled_feed "all-commodities" 1 1749704400
  = JsonObject (Some [Mock.story "101" "Thu Jun 12, 9:00AM CDT" "Barchart"])
      (JsonInt 1749704400)
  ∧ ¬ hint_progress 1749704400 (JsonInt 1749704400)
  ∧ batch_minimum (Mock.date_parser_parse 2025) 2025
      (Some (1749618000, 1749704399))
      [Mock.story "101" "Thu Jun 12, 9:00AM CDT" "Barchart"]
    = Some 1749736800
  ∧ ¬ minimum_progress 1749704400 (Some 1749736800)
  ∧ before_values (Mock.run Mock.stalled_feed 5%nat (Some "20250611"))
    = replicate 5 1749704400
  ∧ reason (Mock.run Mock.stalled_feed 5%nat (Some "20250611"))
    = SafetyLimitReached
  ∧ ¬ strictly_decreasing
        (before_values (Mock.run Mock.stalled_feed 5%nat (Some "20250611"))).
Proof.
  assert (Hbv :
    before_values (Mock.run Mock.stalled_feed 5%nat (Some "20250611"))
    = replicate 5 1749704400).
  { vm_compute. reflexivity. }
  split; [reflexivity |]. split.
  { intros (_ & n & Hn & Hlt). simpl in Hn. injection Hn as <-. lia. }
  split; [vm_compute; reflexivity |]. split.
  { intros (n & Hn & Hlt). injection Hn as <-. lia. }
  split; [exact Hbv |]. split; [vm_compute; reflexivity |].
  rewrite Hbv. intros Hdec.
  specialize (Hdec 0%nat 1749704400 1749704400).
  assert (H : 1749704400 < 1749704400); [| lia].
  apply Hdec. split; reflexivity.
Qed.

(** C2, the failing input: every page of the hintless feed holds an item of
    the target day, older than the cursor, and no hint.  The batch minimum
    makes strict progress, yet the second request is posted with the cursor
    of the first. *)
Lemma C2_fallback_is_not_applied :
  Mock.hintless_feed "all-commodities" 1 1749704400
  = JsonObject (Some [Mock.story "202" "Wed Jun 11, 9:00AM CDT" "Barchart"])
      JsonNull
  ∧ batch_minimum (Mock.date_parser_parse 2025) 2025
      (Some (1749618000, 1749704399))
      [Mock.story "202" "Wed Jun 11, 9:00AM CDT" "Barchart"]
    = Some 1749650400
  ∧ minimum_progress 1749704400 (Some 1749650400)
  ∧ next_before_timestamp 1749704400 JsonNull (Some 1749650400) = 1749704400
  ∧ consecutive
      (before_values (Mock.run Mock.hintless_feed 5%nat (Some "20250611")))
      0 1749704400 1749704400
  ∧ reason (Mock.run Mock.hintless_feed 5%nat (Some "20250611"))
    = SafetyLimitReached.
Proof.
  split; [reflexivity |]. split; [vm_compute; reflexivity |]. split.
  { exists 1749650400. split; [reflexivity | lia]. }
  split; [reflexivity |].
  split; [split; vm_compute; reflexivity | vm_compute; reflexivity].
Qed.

(** The cursor for the next call never depends on the batch minimum. *)
Lemma next_before_timestamp_ignores_minimum (before : Z) (t : json_timestamp)
    (m m' : option Z) :
  next_before_timestamp before t m = next_before_timestamp before t m'.
Proof. reflexivity. Qed.

(** C3, witness: the third page of the paged feed holds an item of 10 June
    between two items of 11 June; the harvest ends there with BelowWindow
    and returns what it held after the first of the three. *)
Lemma C3_below_window_stops_at_once_witness :
  mock_extract (Mock.story "5" "Tue Jun 10, 6:00PM CDT" "Barchart")
  = Some (mk_candidate "5" "Title 5" "https://www.barchart.com/story/news/5/slug"
            "Tue Jun 10, 6:00PM CDT" 1749596400 "Excerpt 5")
  ∧ 1749596400 < 1749618000
  ∧ reason (Mock.run Mock.paged_feed 5%nat (Some "20250611")) = BelowWindow
  ∧ length (before_values (Mock.run Mock.paged_feed 5%nat (Some "20250611")))
    = 3%nat
  ∧ item_id
    <$> match news (Mock.run Mock.paged_feed 5%nat (Some "20250611")) with
        | Returned l => l
        | Raised => []
        end
    = ["1"; "2"; "3"; "4"]%string.
Proof.
  assert (Hextract :
    mock_extract (Mock.story "5" "Tue Jun 10, 6:00PM CDT" "Barchart")
    = Some (mk_candidate "5" "Title 5"
              "https://www.barchart.com/story/news/5/slug"
              "Tue Jun 10, 6:00PM CDT" 1749596400 "Excerpt 5")).
  { vm_compute. reflexivity. }
  assert (Hold : 1749596400 < 1749618000) by lia.
  split; [exact Hextract |]. split; [exact Hold |].
  pose proof (C3_below_window_stops_at_once (Mock.date_parser_parse 2025) 2025
                1749700000 Mock.handshake Mock.paged_feed 5%nat
                "all-commodities" (Some "20250611") 30 None
                1749618000 1749704399 1749704400 2%nat 1749650400
                [Mock.story "4" "Wed Jun 11, 1:00AM CDT" "Barchart"]
                [Mock.story "6" "Wed Jun 11, 2:00AM CDT" "Barchart"]
                (Mock.story "5" "Tue Jun 10, 6:00PM CDT" "Barchart")
                (JsonInt 1749621600)
                (mk_candidate "5" "Title 5"
                   "https://www.barchart.com/story/news/5/slug"
                   "Tue Jun 10, 6:00PM CDT" 1749596400 "Excerpt 5"))
    as Hall.
  cbv zeta in Hall.
  destruct (Hall mock_setup ltac:(vm_compute; reflexivity) eq_refl Hextract
              Hold)
    as (Hreason & Hlen & Hnews).
  split; [exact Hreason |]. split; [exact Hlen |].
  rewrite Hnews. vm_compute. reflexivity.
Defined.

(** C6, witness: the four records the paged feed yields for 20250611 lie
    inside the day, and the final pass drops what lies outside it. *)
Lemma C6_window_containment_witness :
  (∃ l, news (Mock.run Mock.paged_feed 5%nat (Some "20250611")) = Returned l
        ∧ length l = 4%nat
        ∧ Forall (in_window 1749618000 1749704399) l)
  ∧ Forall (in_window 1749618000 1749704399)
      (final_filter (Some (1749618000, 1749704399))
         [mk_news_item "9" "" "" "" 1749704400 ""]).
Proof.
  pose proof (C6_window_containment (Mock.date_parser_parse 2025) 2025
                1749700000 Mock.handshake Mock.paged_feed 5%nat)
    as (Hrun & _ & Hfinal & _).
  split.
  - eexists. split; [vm_compute; reflexivity |]. split; [reflexivity |].
    eapply (Hrun "all-commodities" (Some "20250611") 30 None).
    + exact mock_setup.
    + vm_compute. reflexivity.
  - apply Hfinal; lia.
Defined.

(** C7, witness: the returned list of the paged feed, whose second page
    repeats an item of the first, has four distinct ids. *)
Lemma C7_accepted_iff_unseen_and_in_window_witness :
  ∃ l, news (Mock.run Mock.paged_feed 5%nat (Some "20250611")) = Returned l
       ∧ length l = 4%nat
       ∧ NoDup (item_id <$> l).
Proof.
  pose proof (C7_accepted_iff_unseen_and_in_window (Mock.date_parser_parse 2025)
                2025 1749700000 Mock.handshake Mock.paged_feed 5%nat)
    as (_ & Hrun).
  eexists. split; [vm_compute; reflexivity |]. split; [reflexivity |].
  eapply (Hrun "all-commodities" (Some "20250611") 30 None).
  vm_compute. reflexivity.
Defined.

(** C7, counterexample: the item of the stalled feed is a candidate whose id
    is not in the seen-ids set when it is considered, and it reaches the
    acceptance test; it is newer than the target day and is not accepted. *)
Lemma C7_unseen_candidate_is_rejected :
  let w := Some (1749618000, 1749704399) in
  let c := mk_candidate "101" "Title 101"
             "https://www.barchart.com/story/news/101/slug"
             "Thu Jun 12, 9:00AM CDT" 1749736800 "Excerpt 101" in
  let b := mk_batch_state [] ∅ None false in
  mock_extract (Mock.story "101" "Thu Jun 12, 9:00AM CDT" "Barchart") = Some c
  ∧ older_than_target w (current_item_ts_utc c) = false
  ∧ (news_id c ∉ batch_ids b)
  ∧ batch_items (process_candidate w c b) = batch_items b
  ∧ ¬ (batch_items (process_candidate w c b)
       = batch_items b ++ [item_of_candidate c]
       ↔ news_id c ∉ batch_ids b)
  ∧ news (Mock.run Mock.stalled_feed 1%nat (Some "20250611")) = Returned [].
Proof.
  cbv zeta.
  split; [vm_compute; reflexivity |]. split; [reflexivity |].
  split; [apply not_elem_of_empty |]. split; [reflexivity |].
  split; [| vm_compute; reflexivity].
  intros [_ H]. specialize (H (not_elem_of_empty _)). discriminate.
Qed.

(** C9, witness: the second reply of the short feed has no content and an
    empty hint; the harvest ends there with ExhaustedFeed.  The second reply
    of the empty-reply feed is an empty object; the harvest ends there as
    after a failed reply. *)
Lemma C9_no_content_and_no_hint_ends_the_harvest_witness :
  Mock.short_feed "all-commodities" 2 1749664800 = JsonObject None (JsonStr "")
  ∧ reason (Mock.run Mock.short_feed 5%nat (Some "20250611")) = ExhaustedFeed
  ∧ length (before_values (Mock.run Mock.short_feed 5%nat (Some "20250611")))
    = 2%nat
  ∧ Mock.empty_reply_feed "all-commodities" 2 1749664800 = EmptyJson
  ∧ reason (Mock.run Mock.empty_reply_feed 5%nat (Some "20250611"))
    = TransportError
  ∧ length
      (before_values (Mock.run Mock.empty_reply_feed 5%nat (Some "20250611")))
    = 2%nat.
Proof.
  split; [reflexivity |].
  destruct (C9_no_content_and_no_hint_ends_the_harvest
              (Mock.date_parser_parse 2025) 2025 1749700000 Mock.handshake
              Mock.short_feed 5%nat "all-commodities" (Some "20250611") 30 None
              1%nat 1749664800 (JsonStr "") ltac:(vm_compute; reflexivity))
    as [Hshort _].
  destruct (Hshort eq_refl eq_refl) as [Hreason Hlen].
  split; [exact Hreason |]. split; [exact Hlen |].
  split; [reflexivity |].
  destruct (C9_no_content_and_no_hint_ends_the_harvest
              (Mock.date_parser_parse 2025) 2025 1749700000 Mock.handshake
              Mock.empty_reply_feed 5%nat "all-commodities" (Some "20250611")
              30 None 1%nat 1749664800 JsonNull ltac:(vm_compute; reflexivity))
    as [_ Hempty].
  exact (Hempty eq_refl).
Defined.

(** C9, counterexample: every page of the foreign feed has content but
    yields no candidate (its only story is of another feed) and carries no
    hint; the harvest does not end with ExhaustedFeed: it posts the same
    cursor until the calls run out. *)
Lemma C9_page_without_candidates_does_not_end :
  Mock.foreign_feed "all-commodities" 1 1749704400
  = JsonObject
      (Some [Mock.story "303" "Wed Jun 11, 9:00AM CDT" "Associated Press"])
      JsonNull
  ∧ mock_extract (Mock.story "303" "Wed Jun 11, 9:00AM CDT" "Associated Press")
    = None
  ∧ truthy_timestamp JsonNull = false
  ∧ before_values (Mock.run Mock.foreign_feed 5%nat (Some "20250611"))
    = replicate 5 1749704400
  ∧ reason (Mock.run Mock.foreign_feed 5%nat (Some "20250611"))
    = SafetyLimitReached
  ∧ reason (Mock.run Mock.foreign_feed 5%nat (Some "20250611"))
    ≠ ExhaustedFeed.
Proof.
  split; [reflexivity |]. split; [vm_compute; reflexivity |].
  split; [reflexivity |]. split; [vm_compute; reflexivity |].
  assert (H : reason (Mock.run Mock.foreign_feed 5%nat (Some "20250611"))
              = SafetyLimitReached) by (vm_compute; reflexivity).
  split; [exact H |]. rewrite H. discriminate.
Qed.

(** C10, witness: after two pages of the paged feed the seen ids are the ids
    collected, and the item of the third page that repeats id 2 would leave
    both unchanged. *)
Lemma C10_seen_ids_are_collected_ids_witness :
  let w := Some (1749618000, 1749704399) in
  let st :=
    while_loop (Mock.date_parser_parse 2025) 2025 Mock.paged_feed 2
      "all-commodities" w 30 (initial_loop_state 1749704400) in
  let b := initial_batch_state st in
  let c := mk_candidate "2" "Title 2"
             "https://www.barchart.com/story/news/2/slug"
             "Wed Jun 11, 1:00PM CDT" 1749664800 "Excerpt 2" in
  processed_news_ids st = ids_of (all_news_items st)
  ∧ news_id c ∈ batch_ids b
  ∧ batch_items (process_candidate w c b) = batch_items b
  ∧ batch_ids (process_candidate w c b) = batch_ids b.
Proof.
  cbv zeta.
  pose proof (C10_seen_ids_are_collected_ids (Mock.date_parser_parse 2025) 2025
                Mock.paged_feed "all-commodities"
                (Some (1749618000, 1749704399)) 30 1749704400 2%nat [])
    as Hall.
  cbv zeta in Hall. destruct Hall as (Hst & _ & Hcand).
  split; [exact Hst |].
  assert (Hin :
    news_id (mk_candidate "2" "Title 2"
               "https://www.barchart.com/story/news/2/slug"
               "Wed Jun 11, 1:00PM CDT" 1749664800 "Excerpt 2")
    ∈ batch_ids
        (initial_batch_state
           (while_loop (Mock.date_parser_parse 2025) 2025 Mock.paged_feed 2
              "all-commodities" (Some (1749618000, 1749704399)) 30
              (initial_loop_state 1749704400)))).
  { change (batch_ids (initial_batch_state ?st)) with (processed_news_ids st).
    rewrite Hst. unfold ids_of. apply elem_of_list_to_set.
    vm_compute. apply list_elem_of_further, list_elem_of_here. }
  split; [exact Hin |].
  destruct (Hcand (mk_candidate "2" "Title 2"
                     "https://www.barchart.com/story/news/2/slug"
                     "Wed Jun 11, 1:00PM CDT" 1749664800 "Excerpt 2"))
    as (_ & Hrej & _).
  apply Hrej. left. exact Hin.
Defined.

Lemma endless_feed_never_ends :
  feed_never_ends (Mock.date_parser_parse 2025) 2025 Mock.endless_feed
    "all-commodities" (Some (1749618000, 1749704399)).
Proof.
  intros n before Hok. eexists _, _. split; [reflexivity |].
  split; [left; eauto |]. split.
  - intros story c Hin Hextract. simpl in Hin.
    apply list_elem_of_singleton in Hin as ->.
    assert (Hc :
      mock_extract (Mock.story "1" "Wed Jun 11, 9:00AM CDT" "Barchart")
      = Some (mk_candidate "1" "Title 1"
                "https://www.barchart.com/story/news/1/slug"
                "Wed Jun 11, 9:00AM CDT" 1749650400 "Excerpt 1")).
    { vm_compute. reflexivity. }
    rewrite Hc in Hextract. injection Hextract as <-. reflexivity.
  - intros z Hz. simpl in Hz. injection Hz as <-.
    unfold fromtimestamp_utc_ok in *.
    apply andb_true_iff in Hok as [H1 H2].
    apply andb_true_iff. split; lia.
Qed.

(** C8, witness: with five calls allowed, the harvest of the endless feed
    posts five requests, ends with SafetyLimitReached and returns the item
    the pages hold. *)
Lemma C8_safety_limit_witness :
  (length
     (before_values
        (Mock.run Mock.endless_feed MAX_API_CALLS (Some "20250611")))
   ≤ 500)%nat
  ∧ length (before_values (Mock.run Mock.endless_feed 5%nat (Some "20250611")))
    = 5%nat
  ∧ reason (Mock.run Mock.endless_feed 5%nat (Some "20250611"))
    = SafetyLimitReached
  ∧ ∃ l, news (Mock.run Mock.endless_feed 5%nat (Some "20250611"))
         = Returned l
         ∧ "1"%string ∈ ids_of l.
Proof.
  split.
  { apply (C8_safety_limit (Mock.date_parser_parse 2025) 2025 1749700000
             Mock.handshake Mock.endless_feed MAX_API_CALLS). }
  pose proof (C8_safety_limit (Mock.date_parser_parse 2025) 2025 1749700000
                Mock.handshake Mock.endless_feed 5%nat) as [_ Hall].
  specialize (Hall "all-commodities" (Some "20250611") 30 None
                (Some (1749618000, 1749704399)) 1749704400 1%nat "token"%string).
  cbv zeta in Hall.
  destruct Hall as (Hlen & Hreason & l & Hnews & Hids).
  - exact mock_setup.
  - reflexivity.
  - reflexivity.
  - reflexivity.
  - exact endless_feed_never_ends.
  - intros H. discriminate.
  - split; [exact Hlen |]. split; [exact Hreason |].
    exists l. split; [exact Hnews |].
    apply (Hids 0%nat 1749704400
             (Some [Mock.story "1" "Wed Jun 11, 9:00AM CDT" "Barchart"])
             (JsonInt (Z.max 1 (1749704400 - 60)))
             (Mock.story "1" "Wed Jun 11, 9:00AM CDT" "Barchart")
             (mk_candidate "1" "Title 1"
                "https://www.barchart.com/story/news/1/slug"
                "Wed Jun 11, 9:00AM CDT" 1749650400 "Excerpt 1")).
    + vm_compute. reflexivity.
    + reflexivity.
    + apply list_elem_of_here.
    + vm_compute. reflexivity.
    + reflexivity.
Defined.

(** C4, witness: 11 June 2025 lies in the range, and its window is the one
    computed above; a date with dashes is rejected. *)
Lemma C4_window_of_a_day_witness :
  yyyymmdd 2025 6 11 = "20250611"%string
  ∧ PyDatetime._check_date_fields 2025 6 11 = true
  ∧ 719162 <= PyDatetime._ymd2ord 2025 6 11 <= 918002
  ∧ date_str_to_timestamps_for_day "20250611"
    = Returned (Some 1749618000, Some 1749704399)
  ∧ civil_time (-18000) 1749618000 = (2025, 6, 11, 0, 0, 0)
  ∧ civil_time (-18000) 1749704399 = (2025, 6, 11, 23, 59, 59)
  ∧ Strptime.strptime_Ymd "2025-06-11" = None
  ∧ date_str_to_timestamps_for_day "2025-06-11" = Returned (None, None)
  ∧ Strptime.strptime_Ymd "2025" = None
  ∧ Mock.run Mock.paged_feed 5%nat (Some "2025-06-11"%string)
    = mk_harvest (Returned []) [] InvalidDate.
Proof.
  destruct C4_window_of_a_day as (Hday & _ & Hnone & Hshort & Hrun).
  assert (Hvalid : PyDatetime._check_date_fields 2025 6 11 = true)
    by reflexivity.
  assert (Hord : 719162 <= PyDatetime._ymd2ord 2025 6 11 <= 918002)
    by (vm_compute; split; discriminate).
  assert (Hbad : Strptime.strptime_Ymd "2025-06-11" = None) by reflexivity.
  split; [reflexivity |]. split; [exact Hvalid |]. split; [exact Hord |].
  destruct (Hday 2025 6 11 Hvalid Hord) as (Hw & Hs & He).
  split; [exact Hw |]. split; [exact Hs |]. split; [exact He |].
  split; [exact Hbad |]. split; [exact (Hnone _ Hbad) |].
  split; [apply Hshort; left; simpl; lia |].
  apply Hrun; [exact Hbad | discriminate].
Defined.

(** C4, counterexample: 31 December 9999 is a well-formed date, yet the
    calculator returns no window for it: the end of that day at UTC-5 is in
    the year 10000 in UTC and the conversion raises.  Outside the range of
    C4 the end is not 23:59:59 of the day either: before the epoch [int]
    truncates the negative timestamp upwards, and from 2^34 seconds on the
    float nearest to the last microsecond of the day is the next second; in
    both cases the end is local midnight of the next day.  And a string of
    seven characters that is no YYYYMMDD date is accepted. *)
Lemma C4_last_day_has_no_window :
  yyyymmdd 9999 12 31 = "99991231"%string
  ∧ PyDatetime._check_date_fields 9999 12 31 = true
  ∧ date_str_to_timestamps_for_day "99991231" = Raised
  ∧ date_str_to_timestamps_for_day "19691230"
    = Returned (Some (-154800), Some (-68400))
  ∧ civil_time (-18000) (-68400) = (1969, 12, 31, 0, 0, 0)
  ∧ date_str_to_timestamps_for_day "25140529"
    = Returned (Some 17179794000, Some 17179880400)
  ∧ civil_time (-18000) 17179880400 = (2514, 5, 30, 0, 0, 0)
  ∧ date_str_to_timestamps_for_day "2025611"
    = Returned (Some 1749618000, Some 1749704399).
Proof. repeat split; vm_compute; reflexivity. Qed.

(** The mocked parser gives a zone only to the string with a clock time. *)
Lemma mock_zone_needs_time (s : string) (dt : PyDatetime.datetime) :
  Mock.date_parser_parse 2025 s = Some dt →
  is_Some (PyDatetime.tzinfo dt) →
  has_am_pm s = true ∨ Mock.has_clock_time s = true.
Proof.
  unfold Mock.date_parser_parse, Mock.parse_table, Mock.lookup_string.
  repeat match goal with
         | |- context [String.eqb ?k s] =>
             destruct (String.eqb_spec k s) as [<- | _];
             [intros H; injection H as <-; intros [x Hx];
              try discriminate Hx; right; vm_compute; reflexivity |]
         end.
  discriminate.
Qed.

(** C5, witness: with the mocked parser, read in 2025, the two strings of
    the claim resolve to the instants it names; the second, which has no
    zone and no time of day, gets the offset UTC-5 and noon and keeps its
    year. *)
Lemma C5_resolution_rules_witness :
  no_time_of_day Mock.has_clock_time "Sat Jun 10, 2023"
  ∧ Mock.date_parser_parse 2025 "Sat Jun 10, 2023"
    = Some (PyDatetime.mk_datetime 2023 6 10 0 0 0 0 None)
  ∧ resolve_datetime (Mock.date_parser_parse 2025) 2025 "Sat Jun 10, 2023"
    = Some (PyDatetime.mk_datetime 2023 6 10 12 0 0 0 (Some (-18000)))
  ∧ parse_date_string_to_timestamp (Mock.date_parser_parse 2025) 2025
      "Sat Jun 10, 2023" = Some 1686416400
  ∧ parse_date_string_to_timestamp (Mock.date_parser_parse 2025) 2025
      "Tue Jun 10, 5:00PM" = Some 1749592800
  ∧ ∃ dt u,
      resolve_datetime (Mock.date_parser_parse 2025) 2025 "Tue Jun 10, 5:00PM"
      = Some dt
      ∧ PyDatetime.astimezone_utc dt = Some u
      ∧ 1749592800 = PyFloat.int_of_float (PyDatetime.timestamp u).
Proof.
  destruct (C5_resolution_rules (Mock.date_parser_parse 2025) 2025
              Mock.has_clock_time mock_zone_needs_time)
    as (Hrules & Hconv & Hfirst & _ & Hsecond & _).
  assert (Hnone : no_time_of_day Mock.has_clock_time "Sat Jun 10, 2023").
  { split; reflexivity. }
  assert (Hparse :
    Mock.date_parser_parse 2025 "Sat Jun 10, 2023"
    = Some (PyDatetime.mk_datetime 2023 6 10 0 0 0 0 None)) by reflexivity.
  assert (Hres :
    ∃ dt,
      resolve_datetime (Mock.date_parser_parse 2025) 2025 "Sat Jun 10, 2023"
      = Some dt) by (eexists; reflexivity).
  destruct Hres as [dt Hres].
  destruct (Hrules "Sat Jun 10, 2023"%string _ dt Hparse Hres)
    as (Hzone & Hnoon & _ & Hyear & Hmonth & Hday).
  destruct (Hnoon Hnone) as (Htz & Hh & Hmi & Hs & Hus).
  specialize (Hyear ltac:(discriminate)).
  assert (Hdt : dt = PyDatetime.mk_datetime 2023 6 10 12 0 0 0 (Some (-18000))).
  { destruct dt; simpl in *. subst. reflexivity. }
  assert (Hts :
    parse_date_string_to_timestamp (Mock.date_parser_parse 2025) 2025
      "Tue Jun 10, 5:00PM" = Some 1749592800).
  { apply (Hfirst 2025); [reflexivity | by right | reflexivity]. }
  split; [exact Hnone |]. split; [exact Hparse |].
  split; [by rewrite Hres, Hdt |].
  split; [apply (Hsecond 0 0 0 0); reflexivity |].
  split; [exact Hts |]. exact (Hconv _ _ Hts).
Defined.
